(** * Carbon-footprint reporter: a shallow embedding of [main.py]

    The program reads three numbers and a client name from the terminal,
    computes a footprint, appends the record to [client_data.csv], draws
    [carbon_trends.png] from the whole table and writes one PDF report per
    client entered in the run.

    Modelling choices.
    - Python floats are IEEE-754 binary64 numbers: [spec_float] with
      precision 53 and maximal exponent 1024, operations from [SpecFloat].
    - Python strings are [string]s, each character read as a code point
      below 256.
    - The process state is a [World]: pending terminal lines, the trace of
      what happened so far, the files and the directories.
    - A call either returns ([Ok]) or raises ([Raise]); the world at the
      moment of the raise is kept.
    - A CSV file is stored as the table of cells its text tokenizes into
      (blank lines are no rows), a chart as the series drawn, a PDF as
      the drawing commands issued on its canvas. Reading the table types
      its cells as pandas does: the spellings of a missing value become
      NaN, a column of numbers is numeric, any other column is text.
    - Of [os.makedirs] the model has the failure on the empty path, of
      saving a PDF the failure on a path that spells a directory. Other
      operating-system failures ([OSError]: unwritable or over-long
      paths, full disks) are not modelled. Files and directories are
      kept apart, and a path names the file it spells: no regular file
      is in the way of a directory, and no two spellings name one
      file.
    - The image decoder of the PDF library and the text layout of
      matplotlib are not modelled: a chart file is embedded as it is, a
      label is drawn as it is. Statements that need the chart file to be
      an image, or a client name to be plain, say so. *)

From Stdlib Require Import ZArith Lia Bool Ascii String List.
From Stdlib Require Import Floats.SpecFloat.
From stdpp Require Import base option list strings gmap.

Local Open Scope string_scope.
Local Open Scope Z_scope.

(* ===================================================================== *)
(** ** Binary64 numbers as Python sees them *)
(* ===================================================================== *)

Module PyFloat.

Definition prec : Z := 53.
Definition emax : Z := 1024.

Definition float := spec_float.

Definition mul : float -> float -> float := SFmul prec emax.
Definition add : float -> float -> float := SFadd prec emax.

(** Python's [x == y] and [x >= y] on floats (false on NaN). *)
Definition eqb : float -> float -> bool := SFeqb.
Definition leb : float -> float -> bool := SFleb.

Definition zero : float := S754_zero false.

(** [x >= 0] in Python. *)
Definition nonneg (x : float) : bool := leb zero x.

(** The correctly rounded binary64 number nearest to [m * 10 ^ e], as
    computed by [float(str)] and by the compiler for a literal. *)
Definition of_decimal (neg : bool) (m : Z) (e : Z) : float :=
  match m with
  | Z0 => S754_zero neg
  | Zneg _ => S754_nan
  | Zpos p =>
      if 0 <=? e then
        binary_round prec emax neg (Z.to_pos (m * 10 ^ e)) 0
      else
        let '(q, e', l) :=
          SFdiv_core_binary prec emax m 0 (10 ^ (- e)) 0 in
        binary_round_aux prec emax neg q e' l
  end.

(** *** Shortest round-trip digits ([repr]) *)

(** [scaled_floor m e k] is the floor of [m * 2^e * 10^k]; the boolean
    tells whether the value is exactly that integer. *)
Definition scaled_floor (m : positive) (e k : Z) : Z * bool :=
  let num := Zpos m * 2 ^ Z.max e 0 * 10 ^ Z.max k 0 in
  let den := 2 ^ Z.max (- e) 0 * 10 ^ Z.max (- k) 0 in
  (num / den, num mod den =? 0).

(** Twice the remainder against the denominator: on which side of the
    midpoint between [floor] and [floor + 1] the value lies. *)
Definition scaled_half (m : positive) (e k : Z) : comparison :=
  let num := Zpos m * 2 ^ Z.max e 0 * 10 ^ Z.max k 0 in
  let den := 2 ^ Z.max (- e) 0 * 10 ^ Z.max (- k) 0 in
  (2 * (num mod den)) ?= den.

(** The position of the decimal point: the least [k] with
    [m * 2^e < 10^k], searched upwards from [lo]. *)
Fixpoint decpt_from (fuel : nat) (m : positive) (e lo : Z) : Z :=
  match fuel with
  | O => lo
  | S f =>
      if fst (scaled_floor m e (- lo)) =? 0 then lo
      else decpt_from f m e (lo + 1)
  end.

(** The search starts below the decimal logarithm of the value: with
    [b] the number of bits of the value, [2^(b-1) <= m * 2^e], and
    [0.30102 < log10 2 < 0.30103]. *)
Definition decpt (m : positive) (e : Z) : Z :=
  let b := Zpos (digits2_pos m) + e - 1 in
  let lo := Z.min (b * 30102 / 100000) (b * 30103 / 100000) in
  decpt_from 8 m e lo.

(** The [n]-digit decimals just below and just above the value, tried in
    order of closeness; the first that reads back as the same float.
    [k] is the position of the decimal point. *)
Definition try_digits (m : positive) (e : Z) (k n : Z) : option (Z * Z) :=
  let sc := n - k in
  let '(lo, exact) := scaled_floor m e sc in
  let hi := lo + 1 in
  let back d := match of_decimal false d (- sc) with
                | S754_finite false m' e' => (Pos.eqb m' m && (e' =? e))%bool
                | _ => false
                end in
  if exact then Some (lo, - sc)
  else
    let first_hi :=
      match scaled_half m e sc with
      | Lt => false
      | Gt => true
      | Eq => Z.odd lo
      end in
    let '(a, b) := if first_hi then (hi, lo) else (lo, hi) in
    if back a then Some (a, - sc)
    else if back b then Some (b, - sc)
    else None.

(** The fewest digits, from [n] up, that read back as the float. *)
Fixpoint shortest_from (fuel : nat) (m : positive) (e : Z) (k n : Z)
  : Z * Z :=
  match fuel with
  | O => (Zpos m, e)
  | S f =>
      match try_digits m e k n with
      | Some r => r
      | None => shortest_from f m e k (n + 1)
      end
  end.

(** Drop trailing zeros of the digit string, raising the exponent. *)
Fixpoint strip_zeros (fuel : nat) (d x : Z) : Z * Z :=
  match fuel with
  | O => (d, x)
  | S f => if (d mod 10 =? 0) && negb (d =? 0)
           then strip_zeros f (d / 10) (x + 1) else (d, x)
  end.

Definition shortest (m : positive) (e : Z) : Z * Z :=
  let '(d, x) := shortest_from 17 m e (decpt m e) 1 in
  strip_zeros 400 d x.

(** Decimal digits of a non-negative integer. *)
Fixpoint digits_from (fuel : nat) (d : Z) (acc : string) : string :=
  match fuel with
  | O => acc
  | S f =>
      let c := ascii_of_nat (48 + Z.to_nat (d mod 10)) in
      if d <? 10 then String c acc
      else digits_from f (d / 10) (String c acc)
  end.

Definition digits (d : Z) : string := digits_from 400 d "".

Fixpoint zeros (n : nat) : string :=
  match n with O => "" | S k => String "0" (zeros k) end.

(** [repr] of a positive finite float from its digits [ds] and the
    position [pt] of the decimal point: fixed notation when
    [-4 < pt <= 16], exponent notation otherwise. *)
Definition layout (ds : string) (pt : Z) : string :=
  let n := Z.of_nat (String.length ds) in
  if (pt <=? -4) || (16 <? pt) then
    let x := pt - 1 in
    let mant := match ds with
                | String c "" => String c ""
                | String c rest => String c ("." ++ rest)
                | "" => ""
                end in
    let xs := digits (Z.abs x) in
    let xs := if Z.abs x <? 10 then "0" ++ xs else xs in
    mant ++ "e" ++ (if x <? 0 then "-" else "+") ++ xs
  else if pt <=? 0 then
    "0." ++ zeros (Z.to_nat (- pt)) ++ ds
  else if n <=? pt then
    ds ++ zeros (Z.to_nat (pt - n)) ++ ".0"
  else
    substring 0 (Z.to_nat pt) ds ++ "."
      ++ substring (Z.to_nat pt) (Z.to_nat (n - pt)) ds.

Definition sign_str (s : bool) : string := if s then "-" else "".

(** Python's [repr(x)], which is also [str(x)] and [format(x, '')]. *)
Definition repr (x : float) : string :=
  match x with
  | S754_nan => "nan"
  | S754_infinity s => sign_str s ++ "inf"
  | S754_zero s => sign_str s ++ "0.0"
  | S754_finite s m e =>
      let '(d, x10) := shortest m e in
      let ds := digits d in
      sign_str s ++ layout ds (Z.of_nat (String.length ds) + x10)
  end.

End PyFloat.

Import PyFloat.

(* ===================================================================== *)
(** ** Python strings *)
(* ===================================================================== *)

Module PyStr.

Definition code (c : ascii) : Z := Z.of_nat (nat_of_ascii c).

(** [str.isspace] on one character, for code points below 256. *)
Definition isspace (c : ascii) : bool :=
  let n := code c in
  ((9 <=? n) && (n <=? 13)) || ((28 <=? n) && (n <=? 32))
  || (n =? 133) || (n =? 160).

Fixpoint lstrip (s : string) : string :=
  match s with
  | String c r => if isspace c then lstrip r else s
  | EmptyString => EmptyString
  end.

Definition reverse (s : string) : string :=
  string_of_list_ascii (List.rev (list_ascii_of_string s)).

Definition rstrip (s : string) : string := reverse (lstrip (reverse s)).

(** [s.strip()] *)
Definition strip (s : string) : string := rstrip (lstrip s).

Definition lower_char (c : ascii) : ascii :=
  let n := code c in
  if ((65 <=? n) && (n <=? 90))
     || ((192 <=? n) && (n <=? 222) && negb (n =? 215))
  then ascii_of_nat (Z.to_nat (n + 32)) else c.

(** [s.lower()] *)
Fixpoint lower (s : string) : string :=
  match s with
  | String c r => String (lower_char c) (lower r)
  | EmptyString => EmptyString
  end.

Definition is_digit (c : ascii) : bool :=
  let n := code c in (48 <=? n) && (n <=? 57).

Definition digit_val (c : ascii) : Z := code c - 48.

(** The rest of a [digitpart] after its first digit: digits, each
    optionally preceded by one underscore. The accumulator holds the
    value read so far and the number of digits. *)
Fixpoint digitpart_rest (s : string) (acc : Z * Z) : (Z * Z) * string :=
  match s with
  | String c r =>
      if is_digit c
      then digitpart_rest r (fst acc * 10 + digit_val c, snd acc + 1)
      else if Ascii.eqb c "_" then
        match r with
        | String c2 r2 =>
            if is_digit c2
            then digitpart_rest r2 (fst acc * 10 + digit_val c2, snd acc + 1)
            else (acc, s)
        | EmptyString => (acc, s)
        end
      else (acc, s)
  | EmptyString => (acc, s)
  end.

(** [digitpart ::= digit (["_"] digit)*], continuing the value [acc]. *)
Definition digitpart (s : string) (acc : Z * Z)
  : option ((Z * Z) * string) :=
  match s with
  | String c r =>
      if is_digit c
      then Some (digitpart_rest r (fst acc * 10 + digit_val c, snd acc + 1))
      else None
  | EmptyString => None
  end.

Definition sign (s : string) : bool * string :=
  match s with
  | String "-" r => (true, r)
  | String "+" r => (false, r)
  | _ => (false, s)
  end.

(** [exponent ::= ("e" | "E") [sign] digitpart], to the end of the
    string; an absent exponent is 0. *)
Definition exponent (s : string) : option Z :=
  match s with
  | EmptyString => Some 0
  | String c r =>
      if Ascii.eqb c "e" || Ascii.eqb c "E" then
        let '(neg, r') := sign r in
        match digitpart r' (0, 0) with
        | Some ((v, _), EmptyString) => Some (if neg then - v else v)
        | _ => None
        end
      else None
  end.

(** [floatnumber]: mantissa digits read as one integer [m] and the
    decimal exponent [x], the number being [m * 10 ^ x]. *)
Definition floatnumber (s : string) : option (Z * Z) :=
  match digitpart s (0, 0) with
  | Some ((ip, _), String "." r) =>
      match digitpart r (ip, 0) with
      | Some ((m, nf), r') =>
          match exponent r' with
          | Some x => Some (m, x - nf)
          | None => None
          end
      | None =>
          match exponent r with
          | Some x => Some (ip, x)
          | None => None
          end
      end
  | Some ((ip, _), r) =>
      match exponent r with
      | Some x => Some (ip, x)
      | None => None
      end
  | None =>
      match s with
      | String "." r =>
          match digitpart r (0, 0) with
          | Some ((m, nf), r') =>
              match exponent r' with
              | Some x => Some (m, x - nf)
              | None => None
              end
          | None => None
          end
      | _ => None
      end
  end.

(** The characters [float] skips at both ends of its argument. Unlike
    [str.strip] it leaves the separators 28 to 31 in place, and then
    rejects the string. *)
Definition isspace_float (c : ascii) : bool :=
  let n := code c in
  ((9 <=? n) && (n <=? 13)) || (n =? 32) || (n =? 133) || (n =? 160).

Fixpoint lstrip_float (s : string) : string :=
  match s with
  | String c r => if isspace_float c then lstrip_float r else s
  | EmptyString => EmptyString
  end.

Definition strip_float (s : string) : string :=
  reverse (lstrip_float (reverse (lstrip_float s))).

(** [float(s)]: [None] stands for [ValueError]. *)
Definition to_float (s : string) : option float :=
  let '(neg, body) := sign (strip_float s) in
  let low := lower body in
  if String.eqb low "inf" || String.eqb low "infinity"
  then Some (S754_infinity neg)
  else if String.eqb low "nan" then Some S754_nan
  else
    match floatnumber body with
    | Some (m, x) => Some (of_decimal neg m x)
    | None => None
    end.

End PyStr.

(* ===================================================================== *)
(** ** Values, files and the process state *)
(* ===================================================================== *)

(** The values the program stores in its dictionaries. *)
Inductive value :=
| VStr (s : string)
| VFloat (x : float).

(** A Python [dict] with string keys, in insertion order. *)
Definition dict := list (string * value).

(** [format(v, '')], what an f-string field [{v}] expands to. *)
Definition py_str (v : value) : string :=
  match v with
  | VStr s => s
  | VFloat x => repr x
  end.

(** One plotted series: [plt.bar] or [plt.plot] with its arguments. *)
Record series := {
  s_label : string;
  s_color : string;
  s_x : list value;
  s_y : list value
}.

(** What [generate_graph] puts on the figure before saving it. *)
Record chart := {
  c_figsize : Z * Z;
  c_bar : series;
  c_plots : list series;
  c_xlabel : string;
  c_ylabel : string;
  c_title : string;
  c_dpi : Z
}.

(** Canvas commands of the PDF library, in the order issued. *)
Inductive pdf_op :=
| SetFont (name : string) (size : Z)
| DrawString (x y : Z) (text : string)
| DrawImage (path : string) (x y : Z) (width height : Z)
            (preserveAspectRatio : bool).

(** File contents. [CsvFile] holds the rows of cells of a comma-separated
    file (no rows: a file of zero bytes); [Corrupt] is any content that
    none of the libraries can read. *)
Inductive file :=
| CsvFile (table : list (list string))
| PngFile (c : chart)
| PdfFile (ops : list pdf_op)
| Corrupt.

(** The two functions whose calls are recorded in the trace. *)
Inductive func :=
| FGraph
| FReport (file_path : string).

(** What can be observed of a run, in order. [Enter] and [Exit] bracket
    the calls of [generate_graph] and [create_report]; [Exit] is recorded
    on a normal return only. [GetColumn] records [df[c]];
    [PrintColumns] records [print("CSV Columns:", df.columns)] with the
    header the frame was read from. *)
Inductive event :=
| Print (s : string)
| PrintColumns (cols : list string)
| Prompt (s : string)
| GetColumn (c : string)
| Enter (f : func)
| Exit (f : func).

Inductive exn :=
| ValueError
| EOFError
| KeyError (k : string)
| FileNotFoundError
| EmptyDataError
| ParserError
| TypeError
| IsADirectoryError.

Record World := {
  stdin : list string;
  trace : list event;
  fs : gmap string file;
  dirs : gset string
}.

Definition set_stdin (l : list string) (w : World) : World :=
  {| stdin := l; trace := trace w; fs := fs w; dirs := dirs w |}.
Definition set_trace (t : list event) (w : World) : World :=
  {| stdin := stdin w; trace := t; fs := fs w; dirs := dirs w |}.
Definition set_fs (m : gmap string file) (w : World) : World :=
  {| stdin := stdin w; trace := trace w; fs := m; dirs := dirs w |}.
Definition set_dirs (d : gset string) (w : World) : World :=
  {| stdin := stdin w; trace := trace w; fs := fs w; dirs := d |}.

(** The outcome of running a piece of the program. [OutOfFuel] only
    bounds the unfolding of [while True]; [main_never_out_of_fuel] shows
    that [main] does not produce it. *)
Inductive res (A : Type) :=
| Ok (a : A) (w : World)
| Raise (e : exn) (w : World)
| OutOfFuel.
Arguments Ok {A} a w.
Arguments Raise {A} e w.
Arguments OutOfFuel {A}.

Definition M (A : Type) : Type := World -> res A.

Definition ret {A} (a : A) : M A := fun w => Ok a w.
Definition raise {A} (e : exn) : M A := fun w => Raise e w.
Definition bind {A B} (m : M A) (k : A -> M B) : M B :=
  fun w => match m w with
           | Ok a w' => k a w'
           | Raise e w' => Raise e w'
           | OutOfFuel => OutOfFuel
           end.

Notation "'let*' x ':=' m 'in' k" := (bind m (fun x => k))
  (at level 10, x name, m at level 100, k at level 200).
Notation "m ;;; k" := (bind m (fun _ => k))
  (at level 100, k at level 200, right associativity).

(** *** Primitive effects *)

Definition emit (e : event) : M unit :=
  fun w => Ok tt (set_trace (trace w ++ [e]) w).

(** [print(s)] *)
Definition print (s : string) : M unit := emit (Print s).

(** [input(prompt)]: writes the prompt, reads one line; [EOFError] when
    the terminal has no more lines. *)
Definition input (prompt : string) : M string :=
  emit (Prompt prompt) ;;;
  fun w => match stdin w with
           | l :: rest => Ok l (set_stdin rest w)
           | [] => Raise EOFError w
           end.

(** [os.path.exists(p)] *)
Definition path_exists (p : string) : M bool :=
  fun w => Ok (bool_decide (is_Some (fs w !! p))) w.

(** Writing a file through a path opened for writing. The program
    writes into its working directory or into a directory it has just
    made, so the directory part of the path is not checked. *)
Definition write_file (p : string) (f : file) : M unit :=
  fun w => Ok tt (set_fs (<[p := f]> (fs w)) w).

(** A body run as a recorded call. *)
Definition call {A} (f : func) (body : M A) : M A :=
  emit (Enter f) ;;; let* r := body in emit (Exit f) ;;; ret r.

(** [float(s)] *)
Definition float_of (s : string) : M float :=
  match PyStr.to_float s with
  | Some x => ret x
  | None => raise ValueError
  end.

(** [d[k]] on a dictionary *)
Fixpoint dict_get (d : dict) (k : string) : option value :=
  match d with
  | (k', v) :: r => if String.eqb k' k then Some v else dict_get r k
  | [] => None
  end.

Definition getitem (d : dict) (k : string) : M value :=
  match dict_get d k with
  | Some v => ret v
  | None => raise (KeyError k)
  end.

(** *** Paths *)

Definition slash : ascii := "/"%char.

Fixpoint drop_to_slash (l : list ascii) : list ascii :=
  match l with
  | c :: r => if Ascii.eqb c slash then l else drop_to_slash r
  | [] => []
  end.

Fixpoint drop_slashes (l : list ascii) : list ascii :=
  match l with
  | c :: r => if Ascii.eqb c slash then drop_slashes r else l
  | [] => []
  end.

(** [os.path.dirname(p)]: up to the last slash, trailing slashes
    removed unless nothing else is left. *)
Definition dirname (p : string) : string :=
  let head := drop_to_slash (List.rev (list_ascii_of_string p)) in
  match drop_slashes head with
  | [] => string_of_list_ascii (List.rev head)
  | h => string_of_list_ascii (List.rev h)
  end.

Fixpoint take_to_slash (l : list ascii) : list ascii :=
  match l with
  | c :: r => if Ascii.eqb c slash then [] else c :: take_to_slash r
  | [] => []
  end.

(** The path spells a directory rather than a file: it ends in a slash
    (or is empty), or its last component is [.] or [..]. *)
Definition spells_directory (p : string) : bool :=
  match take_to_slash (List.rev (list_ascii_of_string p)) with
  | [] => true
  | ["."%char] => true
  | ["."%char; "."%char] => true
  | _ => false
  end.

Fixpoint ancestors (fuel : nat) (p : string) : list string :=
  match fuel with
  | O => []
  | S f => if String.eqb p "" then [] else p :: ancestors f (dirname p)
  end.

(** [os.makedirs(p, exist_ok=True)]: the directory and its parents; the
    empty path names no directory and raises [FileNotFoundError]. *)
Definition makedirs (p : string) : M unit :=
  fun w =>
    if String.eqb p "" then Raise FileNotFoundError w
    else Ok tt (set_dirs (dirs w ∪ list_to_set (ancestors (S (String.length p)) p)) w).

(* ===================================================================== *)
(** ** The libraries, as far as the program uses them *)
(* ===================================================================== *)

(** *** pandas *)

Record DataFrame := {
  columns : list string;
  rows : list (list value)
}.

(** [pd.DataFrame([d])]: one row, the columns in the order of the keys. *)
Definition DataFrame_of (d : dict) : DataFrame :=
  {| columns := map fst d; rows := [map snd d] |}.

Definition is_nan (x : float) : bool :=
  match x with S754_nan => true | _ => false end.

(** The text of one cell written by [to_csv]: NaN becomes the empty
    cell, other floats their [repr]. *)
Definition csv_cell (v : value) : string :=
  match v with
  | VStr s => s
  | VFloat x => if is_nan x then "" else repr x
  end.

Definition csv_rows (df : DataFrame) (header : bool) : list (list string) :=
  (if header then [columns df] else []) ++ map (map csv_cell) (rows df).

(** [df.to_csv(path, mode=.., header=.., index=False)], mode ['a'] when
    [append] holds and ['w'] otherwise. *)
Definition to_csv (df : DataFrame) (path : string) (append header : bool)
  : M unit :=
  fun w =>
    let new := csv_rows df header in
    let content :=
      if append then
        match fs w !! path with
        | Some (CsvFile t) => CsvFile (t ++ new)
        | Some _ => Corrupt
        | None => CsvFile new
        end
      else CsvFile new in
    write_file path content w.

(** The spellings [read_csv] takes for a missing value. *)
Definition NA_VALUES : list string :=
  [""; "#N/A"; "#N/A N/A"; "#NA"; "-1.#IND"; "-1.#QNAN"; "-NaN"; "-nan";
   "1.#IND"; "1.#QNAN"; "<NA>"; "N/A"; "NA"; "NULL"; "NaN"; "None"; "n/a";
   "nan"; "null"].

Definition is_na (s : string) : bool := existsb (String.eqb s) NA_VALUES.

(** The blanks the number parser of [read_csv] skips around a number. *)
Definition isspace_c (c : ascii) : bool :=
  let n := PyStr.code c in ((9 <=? n) && (n <=? 13)) || (n =? 32).

Fixpoint lstrip_c (s : string) : string :=
  match s with
  | String c r => if isspace_c c then lstrip_c r else s
  | EmptyString => EmptyString
  end.

Definition strip_c (s : string) : string :=
  PyStr.reverse (lstrip_c (PyStr.reverse (lstrip_c s))).

Fixpoint has_underscore (s : string) : bool :=
  match s with
  | String c r => Ascii.eqb c "_" || has_underscore r
  | EmptyString => false
  end.

(** The number a cell stands for, if it is one: an optional sign, digits
    with an optional point and exponent, or a spelling of infinity. The
    value is the nearest float; the parser of pandas can differ from it
    in the last bit on a number of more than fifteen digits, and no
    statement below depends on the bits of a number read back. *)
Definition to_number (s : string) : option float :=
  let low := PyStr.lower s in
  if existsb (String.eqb low) ["inf"; "+inf"; "infinity"; "+infinity"]
  then Some (S754_infinity false)
  else if existsb (String.eqb low) ["-inf"; "-infinity"]
  then Some (S754_infinity true)
  else
    let body := strip_c s in
    if has_underscore body then None
    else
      let '(neg, b) := PyStr.sign body in
      match PyStr.floatnumber b with
      | Some (m, x) => Some (of_decimal neg m x)
      | None => None
      end.

(** The cells at position [j] of the rows; a row that ends before it
    was padded with empty cells. *)
Definition raw_column (j : nat) (t : list (list string)) : list string :=
  map (fun r => nth j r "") t.

(** A column is numeric when each of its cells is a number or missing. *)
Definition numeric_column (raw : list string) : bool :=
  forallb (fun s => is_na s || bool_decide (is_Some (to_number s))) raw.

(** The value of a cell: NaN for a missing one, a float in a numeric
    column, the text otherwise (also in a column of truth values, which
    pandas would read as booleans). *)
Definition read_cell (numeric : bool) (s : string) : value :=
  if is_na s then VFloat S754_nan
  else if numeric then
    match to_number s with
    | Some x => VFloat x
    | None => VStr s
    end
  else VStr s.

Definition read_column (raw : list string) : list value :=
  map (read_cell (numeric_column raw)) raw.

(** The number of fields the tokenizer settles on: that of the header,
    or of the first data row when that is longer. *)
Definition table_width (h : list string) (t : list (list string)) : nat :=
  match t with
  | r :: _ => Nat.max (length h) (length r)
  | [] => length h
  end.

(** Some data row after the first has more fields than that. *)
Definition too_long (width : nat) (t : list (list string)) : bool :=
  existsb (fun r => (width <? length r)%nat) (tl t).

(** The frame of a tokenized table: the first row names the columns.
    When the first data row is longer than the header, its leading cells
    (and those of the rows below) are the index and the names apply to
    the cells after them. The names are kept as the header has them:
    pandas renames a repeated name after its first occurrence and gives
    an empty one a name of its own, which changes the list it prints
    but none of the lookups the program makes. *)
Definition read_table (h : list string) (t : list (list string))
  : DataFrame :=
  let lead := (table_width h t - length h)%nat in
  let cell r j :=
    read_cell (numeric_column (raw_column (lead + j) t))
      (nth (lead + j) r "") in
  {| columns := h;
     rows := map (fun r => map (cell r) (seq 0 (length h))) t |}.

(** [pd.read_csv(path)]: [EmptyDataError] on a file without rows,
    [ParserError] on a data row after the first that is too long. *)
Definition read_csv (path : string) : M DataFrame :=
  fun w =>
    match fs w !! path with
    | None => Raise FileNotFoundError w
    | Some (CsvFile []) => Raise EmptyDataError w
    | Some (CsvFile (h :: t)) =>
        if too_long (table_width h t) t then Raise ParserError w
        else Ok (read_table h t) w
    | Some _ => Raise ParserError w
    end.

Fixpoint index_of (c : string) (l : list string) : option nat :=
  match l with
  | x :: r => if String.eqb x c then Some O
              else option_map S (index_of c r)
  | [] => None
  end.

(** [c in df.columns] *)
Definition has_column (df : DataFrame) (c : string) : bool :=
  bool_decide (c ∈ columns df).

(** [df[c]]: the values of one column. *)
Definition column (df : DataFrame) (c : string) : M (list value) :=
  emit (GetColumn c) ;;;
  match index_of c (columns df) with
  | Some i => ret (map (fun r => nth i r (VFloat S754_nan)) (rows df))
  | None => raise (KeyError c)
  end.

(** *** matplotlib *)

Definition is_text (v : value) : bool :=
  match v with VStr _ => true | VFloat _ => false end.

(** What the horizontal axis accepts: numbers, or names. A column of
    names with a missing cell among them is refused with [TypeError]. *)
Definition plottable (x : list value) : bool :=
  forallb is_text x || forallb (fun v => negb (is_text v)) x.

(** [plt.bar(x, height, color=.., label=..)] *)
Definition plt_bar (x height : list value) (color label : string)
  : M series :=
  if plottable x
  then ret {| s_label := label; s_color := color; s_x := x; s_y := height |}
  else raise TypeError.

(** [plt.plot(x, y, color=.., marker='o', label=.., linestyle='--')] *)
Definition plt_plot (x y : list value) (color label : string) : M series :=
  if plottable x
  then ret {| s_label := label; s_color := color; s_x := x; s_y := y |}
  else raise TypeError.

(** [plt.savefig(path, dpi=..)] *)
Definition savefig (path : string) (c : chart) : M unit :=
  write_file path (PngFile c).

(** *** reportlab *)

Record canvas := {
  cv_path : string;
  cv_ops : list pdf_op
}.

(** The page size [letter], in points. *)
Definition letter : Z * Z := (612, 792).

Definition Canvas (file_path : string) : canvas :=
  {| cv_path := file_path; cv_ops := [] |}.

Definition draw (pdf : canvas) (op : pdf_op) : canvas :=
  {| cv_path := cv_path pdf; cv_ops := cv_ops pdf ++ [op] |}.

Definition setFont (pdf : canvas) (name : string) (size : Z) : canvas :=
  draw pdf (SetFont name size).
Definition drawString (pdf : canvas) (x y : Z) (text : string) : canvas :=
  draw pdf (DrawString x y text).
(** [pdf.drawImage(path, x, y, width=.., height=..,
    preserveAspectRatio=..)]: the command is recorded; the file at the
    path is not decoded. *)
Definition drawImage (pdf : canvas) (path : string) (x y width height : Z)
  (preserveAspectRatio : bool) : canvas :=
  draw pdf (DrawImage path x y width height preserveAspectRatio).

(** [pdf.save()]: the file is opened for writing only now; a path that
    spells a directory is refused with [IsADirectoryError]. *)
Definition save (pdf : canvas) : M unit :=
  if spells_directory (cv_path pdf) then raise IsADirectoryError
  else write_file (cv_path pdf) (PdfFile (cv_ops pdf)).

(* ===================================================================== *)
(** ** The program *)
(* ===================================================================== *)

Definition CSV_FILE : string := "client_data.csv".
Definition GRAPH_FILE : string := "carbon_trends.png".

(** The float literals [0.233], [0.12] and [0.5]. *)
Definition lit_0_233 : float := Eval vm_compute in of_decimal false 233 (-3).
Definition lit_0_12 : float := Eval vm_compute in of_decimal false 12 (-2).
Definition lit_0_5 : float := Eval vm_compute in of_decimal false 5 (-1).

Definition calculate_footprint (energy distance waste : float) : float :=
  add (add (mul energy lit_0_233) (mul distance lit_0_12)) (mul waste lit_0_5).

Definition append_to_csv (client_data : dict) : M unit :=
  let df := DataFrame_of client_data in
  let* ex := path_exists CSV_FILE in
  (if ex
   then to_csv df CSV_FILE true false
   else to_csv df CSV_FILE false true) ;;;
  let* name := getitem client_data "Client" in
  print ("Data for " ++ py_str name ++ " added to CSV.").

Definition generate_graph : M unit :=
  call FGraph (
    let* ex := path_exists CSV_FILE in
    if negb ex then
      print "No data found! Run the program and add client data first."
    else
      let* df := read_csv CSV_FILE in
      emit (PrintColumns (columns df)) ;;;
      if negb (has_column df "Client") then
        print "Error: 'Client' column not found in CSV."
      else
        let* x0 := column df "Client" in
        let* y0 := column df "total_footprint" in
        let* bar := plt_bar x0 y0 "skyblue" "Carbon Footprint" in
        let* x1 := column df "Client" in
        let* y1 := column df "energy_kwh" in
        let* p1 := plt_plot x1 y1 "green" "Energy" in
        let* x2 := column df "Client" in
        let* y2 := column df "transport_km" in
        let* p2 := plt_plot x2 y2 "orange" "Transport" in
        let* x3 := column df "Client" in
        let* y3 := column df "waste_kg" in
        let* p3 := plt_plot x3 y3 "red" "Waste" in
        let fig := {| c_figsize := (10, 6); c_bar := bar;
                      c_plots := [p1; p2; p3];
                      c_xlabel := "Clients"; c_ylabel := "Metrics";
                      c_title := "Carbon Footprint Trends";
                      c_dpi := 300 |} in
        savefig GRAPH_FILE fig ;;;
        print ("Graph saved as '" ++ GRAPH_FILE ++ "'.")).

Definition create_report (data : dict) (file_path : string) : M unit :=
  call (FReport file_path) (
    makedirs (dirname file_path) ;;;
    let pdf := Canvas file_path in
    let height := snd letter in
    let pdf := setFont pdf "Helvetica-Bold" 16 in
    let pdf := drawString pdf 200 (height - 40) "Carbon Footprint Report" in
    let pdf := setFont pdf "Helvetica" 12 in
    let y_position := height - 80 in
    let* v := getitem data "Client" in
    let pdf := drawString pdf 50 y_position ("Client: " ++ py_str v) in
    let y_position := y_position - 20 in
    let* v := getitem data "energy_kwh" in
    let pdf := drawString pdf 50 y_position
                 ("Energy: " ++ py_str v ++ " kWh") in
    let y_position := y_position - 20 in
    let* v := getitem data "transport_km" in
    let pdf := drawString pdf 50 y_position
                 ("Transport: " ++ py_str v ++ " km") in
    let y_position := y_position - 20 in
    let* v := getitem data "waste_kg" in
    let pdf := drawString pdf 50 y_position
                 ("Waste: " ++ py_str v ++ " kg") in
    let y_position := y_position - 20 in
    let* v := getitem data "total_footprint" in
    let pdf := drawString pdf 50 y_position
                 ("Footprint: " ++ py_str v ++ " kg CO2") in
    let y_position := y_position - 30 in
    let pdf := drawString pdf 50 y_position "Suggestions:" in
    let y_position := y_position - 20 in
    let pdf := drawString pdf 50 y_position
                 "- Use energy-efficient appliances." in
    let y_position := y_position - 15 in
    let pdf := drawString pdf 50 y_position
                 "- Carpool or use public transport." in
    let y_position := y_position - 15 in
    let pdf := drawString pdf 50 y_position "- Recycle and reduce waste." in
    let y_position := y_position - 40 in
    let* ex := path_exists GRAPH_FILE in
    let* pdf :=
      (if ex then
         let pdf := drawString pdf 50 y_position
                      "Carbon Footprint Comparison Graph:" in
         let y_position := y_position - 200 in
         let pdf := drawImage pdf GRAPH_FILE 50 y_position 500 200 true in
         print ("Added " ++ GRAPH_FILE ++ " to " ++ file_path) ;;;
         ret pdf
       else ret pdf) in
    save pdf ;;;
    print ("PDF Report Created: " ++ file_path)).

(** The dictionary [client_details] built in [main]. *)
Definition client_details (client_name : string)
  (energy_kwh transport_km waste_kg total_footprint : float) : dict :=
  [ ("Client", VStr client_name);
    ("energy_kwh", VFloat energy_kwh);
    ("transport_km", VFloat transport_km);
    ("waste_kg", VFloat waste_kg);
    ("total_footprint", VFloat total_footprint) ].

(** [try: body except ValueError: handler] *)
Definition try_ValueError {A} (body handler : M A) : M A :=
  fun w => match body w with
           | Raise ValueError w' => handler w'
           | r => r
           end.

(** How one pass through the body of [while True] ends. *)
Inductive ctl := Continue | Break.

Definition newline : string := String (ascii_of_nat 10) "".

(** The three numeric prompts inside the [try]. *)
Definition read_numbers : M (float * float * float) :=
  let* s := input "Energy (kWh): " in
  let* energy_kwh := float_of s in
  let* s := input "Transport (km): " in
  let* transport_km := float_of s in
  let* s := input "Waste (kg): " in
  let* waste_kg := float_of s in
  ret (energy_kwh, transport_km, waste_kg).

(** One iteration of the session loop, from the accumulated
    [client_data] to the control decision and the new accumulator. *)
Definition loop_body (client_data : list dict) : M (ctl * list dict) :=
  print (newline ++ "Enter client data:") ;;;
  let* r := try_ValueError
              (let* n := read_numbers in ret (Some n))
              (print "Invalid input. Please enter numeric values." ;;;
               ret None) in
  match r with
  | None => ret (Continue, client_data)
  | Some (energy_kwh, transport_km, waste_kg) =>
      let total_footprint :=
        calculate_footprint energy_kwh transport_km waste_kg in
      let* client_name := input "Client Name: " in
      let details := client_details client_name energy_kwh transport_km
                       waste_kg total_footprint in
      let client_data := (client_data ++ [details])%list in
      append_to_csv details ;;;
      let* answer := input "Add another client? (yes/no): " in
      let continue_input := PyStr.lower (PyStr.strip answer) in
      if negb (String.eqb continue_input "yes")
      then ret (Break, client_data)
      else ret (Continue, client_data)
  end.

(** [while True: body], unfolded at most [fuel] times. *)
Fixpoint session_loop (fuel : nat) (client_data : list dict)
  : M (list dict) :=
  match fuel with
  | O => fun _ => OutOfFuel
  | S f =>
      let* r := loop_body client_data in
      match r with
      | (Continue, client_data) => session_loop f client_data
      | (Break, client_data) => ret client_data
      end
  end.

(** [f"Reports/{client['Client']}_report.pdf"] *)
Definition report_filename (client : dict) : M string :=
  let* name := getitem client "Client" in
  ret ("Reports/" ++ py_str name ++ "_report.pdf").

(** [for client in client_data: ...] *)
Fixpoint make_reports (client_data : list dict) : M unit :=
  match client_data with
  | [] => ret tt
  | client :: rest =>
      let* report_filename := report_filename client in
      create_report client report_filename ;;;
      make_reports rest
  end.

(** Every pass through the loop reads at least one line, so one more
    unfolding than there are pending lines is enough. *)
Definition main : M unit :=
  fun w =>
    (let* client_data := session_loop (S (length (stdin w))) [] in
     generate_graph ;;;
     make_reports client_data ;;;
     print "All reports generated successfully.") w.

(* ===================================================================== *)
(** ** Vocabulary of the properties *)
(* ===================================================================== *)

(** The formula as the specification writes it, constants first. *)
Definition footprint_formula (e t w : float) : float :=
  add (add (mul lit_0_233 e) (mul lit_0_12 t)) (mul lit_0_5 w).

(** Zero of either sign, a positive finite number or plus infinity. *)
Definition not_negative (x : float) : Prop :=
  match x with
  | S754_zero _ | S754_finite false _ _ | S754_infinity false => True
  | _ => False
  end.

(** Has the sign [s] and is a number. *)
Definition signed (s : bool) (x : float) : Prop :=
  match x with
  | S754_zero s' | S754_infinity s' | S754_finite s' _ _ => s' = s
  | S754_nan => False
  end.

(** One submission, as in the data model of the specification. *)
Record ClientRecord := {
  Client : string;
  energy_kwh : float;
  transport_km : float;
  waste_kg : float;
  total_footprint : float
}.

(** The dictionary [main] builds for a submission. *)
Definition details (r : ClientRecord) : dict :=
  client_details (Client r) (energy_kwh r) (transport_km r) (waste_kg r)
    (total_footprint r).

(** The submission of the worked example of the specification. *)
Definition acme : ClientRecord :=
  let e := of_decimal false 10 0 in
  let t := of_decimal false 5 0 in
  let w := of_decimal false 2 0 in
  {| Client := "Acme"; energy_kwh := e; transport_km := t; waste_kg := w;
     total_footprint := calculate_footprint e t w |}.

(** The fixed header of the store. *)
Definition HEADER : list string :=
  ["Client"; "energy_kwh"; "transport_km"; "waste_kg"; "total_footprint"].

(** The row of cells persisted for a submission. *)
Definition record_row (r : ClientRecord) : list string :=
  [ Client r; csv_cell (VFloat (energy_kwh r));
    csv_cell (VFloat (transport_km r)); csv_cell (VFloat (waste_kg r));
    csv_cell (VFloat (total_footprint r)) ].

(** Appending several submissions, one call each. *)
Fixpoint append_all (rs : list ClientRecord) : M unit :=
  match rs with
  | [] => ret tt
  | r :: rest => append_to_csv (details r) ;;; append_all rest
  end.

(** A world with the given pending terminal lines and nothing on disk. *)
Definition world0 (lines : list string) : World :=
  {| stdin := lines; trace := []; fs := ∅; dirs := ∅ |}.

(** A world whose disk holds the given files. *)
Definition world_with (files : gmap string file) : World :=
  {| stdin := []; trace := []; fs := files; dirs := ∅ |}.

Definition no_data_message : string :=
  "No data found! Run the program and add client data first.".
Definition no_client_message : string :=
  "Error: 'Client' column not found in CSV.".
Definition invalid_message : string :=
  "Invalid input. Please enter numeric values.".

(** The store holds no record: a file of zero bytes, or a header row
    alone. *)
Definition store_empty (w : World) : Prop :=
  fs w !! CSV_FILE = Some (CsvFile [])
  \/ exists h, fs w !! CSV_FILE = Some (CsvFile [h]).

(** The store is absent or was written by this program. *)
Definition store_ok (w : World) : Prop :=
  fs w !! CSV_FILE = None
  \/ exists t, fs w !! CSV_FILE = Some (CsvFile (HEADER :: t)).

(** The path of the report of a client. *)
Definition report_path (name : string) : string :=
  "Reports/" ++ name ++ "_report.pdf".

(** The title, the five fields and the suggestions of a report. *)
Definition text_section (r : ClientRecord) : list pdf_op :=
  [ SetFont "Helvetica-Bold" 16;
    DrawString 200 752 "Carbon Footprint Report";
    SetFont "Helvetica" 12;
    DrawString 50 712 ("Client: " ++ Client r);
    DrawString 50 692 ("Energy: " ++ repr (energy_kwh r) ++ " kWh");
    DrawString 50 672 ("Transport: " ++ repr (transport_km r) ++ " km");
    DrawString 50 652 ("Waste: " ++ repr (waste_kg r) ++ " kg");
    DrawString 50 632 ("Footprint: " ++ repr (total_footprint r) ++ " kg CO2");
    DrawString 50 602 "Suggestions:";
    DrawString 50 582 "- Use energy-efficient appliances.";
    DrawString 50 567 "- Carpool or use public transport.";
    DrawString 50 552 "- Recycle and reduce waste." ].

(** The caption and the embedded chart: a 500 x 200 box, aspect ratio
    kept. *)
Definition image_section : list pdf_op :=
  [ DrawString 50 512 "Carbon Footprint Comparison Graph:";
    DrawImage GRAPH_FILE 50 312 500 200 true ].

Definition report_ops (r : ClientRecord) (with_image : bool) : list pdf_op :=
  (text_section r ++ if with_image then image_section else [])%list.


(** The chart file is on disk. *)
Definition chart_present (w : World) : bool :=
  bool_decide (is_Some (fs w !! GRAPH_FILE)).

(** The submission read in one pass of the loop. *)
Definition submission (name : string) (e t w : float) : ClientRecord :=
  {| Client := name; energy_kwh := e; transport_km := t; waste_kg := w;
     total_footprint := calculate_footprint e t w |}.

(** The store after one more submission. *)
Definition store_after (files : gmap string file) (r : ClientRecord)
  : gmap string file :=
  <[CSV_FILE := match files !! CSV_FILE with
                | None => CsvFile [HEADER; record_row r]
                | Some (CsvFile t) => CsvFile (t ++ [record_row r])
                | Some _ => Corrupt
                end]> files.

(** The answer to the continue prompt is an affirmative. *)
Definition says_yes (answer : string) : Prop :=
  PyStr.lower (PyStr.strip answer) = "yes".

(** The three numeric prompts, in order. *)
Definition numeric_prompts : list event :=
  [Prompt "Energy (kWh): "; Prompt "Transport (km): "; Prompt "Waste (kg): "].

(** The data rows of the store (none when it is absent or unreadable). *)
Definition stored_rows (w : World) : list (list string) :=
  match fs w !! CSV_FILE with
  | Some (CsvFile (_ :: t)) => t
  | _ => []
  end.

(** The two call events of one report. *)
Definition report_calls (r : ClientRecord) : list event :=
  [Enter (FReport (report_path (Client r)));
   Exit (FReport (report_path (Client r)))].

(** A computation that never runs out of fuel. *)
Definition terminates {A} (m : M A) : Prop :=
  forall w, m w <> OutOfFuel.

(** The recorded calls of a trace. *)
Definition is_call (e : event) : bool :=
  match e with Enter _ | Exit _ => true | _ => false end.

Definition calls (t : list event) : list event := List.filter is_call t.

(** The last record of [rs] submitted under [name]. *)
Fixpoint last_named (name : string) (rs : list ClientRecord)
  : option ClientRecord :=
  match rs with
  | [] => None
  | r :: rest =>
      match last_named name rest with
      | Some r' => Some r'
      | None => if String.eqb (Client r) name then Some r else None
      end
  end.

(** The world a computation ends in, whether it returns or raises. *)
Definition final_world {A} (r : res A) : option World :=
  match r with
  | Ok _ w => Some w
  | Raise _ w => Some w
  | OutOfFuel => None
  end.

(** The derived field of a record agrees with its three inputs. *)
Definition consistent (r : ClientRecord) : Prop :=
  total_footprint r
  = calculate_footprint (energy_kwh r) (transport_km r) (waste_kg r).

(** The columns [generate_graph] plots against [Client]. *)
Definition plotted_columns : list string :=
  ["total_footprint"; "energy_kwh"; "transport_km"; "waste_kg"].


(** Characters a written float cell can begin with: a digit, a minus
    sign, or the first letter of [inf] and [nan]. *)
Definition float_head (c : ascii) : Prop :=
  PyStr.is_digit c = true \/ c = "-"%char \/ c = "i"%char \/ c = "n"%char.

(** The string is empty or begins with a [float_head] character. *)
Definition float_like (s : string) : Prop :=
  match s with
  | EmptyString => True
  | String c _ => float_head c
  end.


(** The store holds at least one row, or is no table at all. *)
Definition store_nonempty (f : option file) : Prop :=
  match f with
  | Some (CsvFile (_ :: _)) | Some Corrupt => True
  | _ => False
  end.

(** No data row after the first is longer than the table is wide:
    [read_csv] tokenizes the table. *)
Definition rows_fit (h : list string) (t : list (list string)) : Prop :=
  too_long (table_width h t) t = false.

(** The values [read_csv] gives the column named [c] of a table with
    header [h] and data rows [t], top to bottom. *)
Definition cells_of (h : list string) (t : list (list string)) (c : string)
  : list value :=
  match index_of c h with
  | Some i => read_column (raw_column (table_width h t - length h + i) t)
  | None => []
  end.

(** The figure [generate_graph] draws from a table. *)
Definition chart_of (h : list string) (t : list (list string)) : chart :=
  let x := cells_of h t "Client" in
  {| c_figsize := (10, 6);
     c_bar := {| s_label := "Carbon Footprint"; s_color := "skyblue";
                 s_x := x; s_y := cells_of h t "total_footprint" |};
     c_plots :=
       [ {| s_label := "Energy"; s_color := "green";
            s_x := x; s_y := cells_of h t "energy_kwh" |};
         {| s_label := "Transport"; s_color := "orange";
            s_x := x; s_y := cells_of h t "transport_km" |};
         {| s_label := "Waste"; s_color := "red";
            s_x := x; s_y := cells_of h t "waste_kg" |} ];
     c_xlabel := "Clients"; c_ylabel := "Metrics";
     c_title := "Carbon Footprint Trends";
     c_dpi := 300 |}.

(** The events of a call of [generate_graph] that draws the chart. *)
Definition draw_events (h : list string) : list event :=
  [Enter FGraph; PrintColumns h;
   GetColumn "Client"; GetColumn "total_footprint";
   GetColumn "Client"; GetColumn "energy_kwh";
   GetColumn "Client"; GetColumn "transport_km";
   GetColumn "Client"; GetColumn "waste_kg";
   Print "Graph saved as 'carbon_trends.png'.";
   Exit FGraph].










(** The row [to_csv] writes for a dictionary: its values in key order. *)
Definition dict_row (d : dict) : list string := map csv_cell (map snd d).

(** The store after a dictionary was written to it. *)
Definition store_with (files : gmap string file) (d : dict)
  : gmap string file :=
  <[CSV_FILE := match files !! CSV_FILE with
                | None => CsvFile [map fst d; dict_row d]
                | Some (CsvFile t) => CsvFile (t ++ [dict_row d])
                | Some _ => Corrupt
                end]> files.

(** The string begins with a decimal digit. *)
Definition digit_headed (s : string) : Prop :=
  match s with
  | String c _ => PyStr.is_digit c = true
  | EmptyString => False
  end.

(* ===================================================================== *)
(** ** Footprint Calculator *)
(* ===================================================================== *)

Section Calculator.

(** The literals are the binary64 numbers nearest to 0.233 and 0.12
    (within half a unit in the last place), and 0.5 exactly. *)
Lemma literals_correctly_rounded :
  lit_0_233 = S754_finite false 8394709705418605 (-55)
  /\ 2 * Z.abs (1000 * 8394709705418605 - 233 * 2 ^ 55) <= 1000
  /\ lit_0_12 = S754_finite false 8646911284551352 (-56)
  /\ 2 * Z.abs (100 * 8646911284551352 - 12 * 2 ^ 56) <= 100
  /\ lit_0_5 = S754_finite false 4503599627370496 (-53)
  /\ 2 * 4503599627370496 = 2 ^ 53.
Proof. repeat split; vm_compute; congruence. Qed.

(** Samples of [float(s)] and [repr(x)], as Python evaluates them. *)
Example to_float_samples :
  PyStr.to_float " 2.5 " = Some (S754_finite false 5629499534213120 (-51))
  /\ PyStr.to_float "1_000" = PyStr.to_float "1e3"
  /\ PyStr.to_float "-inf" = Some (S754_infinity true)
  /\ PyStr.to_float "NaN" = Some S754_nan
  /\ PyStr.to_float "abc" = None
  /\ PyStr.to_float "" = None
  /\ PyStr.to_float "1e" = None
  /\ PyStr.to_float "1__0" = None
  /\ PyStr.to_float "- 1" = None
  /\ PyStr.to_float (String (ascii_of_nat 160) "7")
     = PyStr.to_float "7"
  /\ PyStr.to_float (String (ascii_of_nat 31) "7") = None
  /\ PyStr.strip (String (ascii_of_nat 31) "7") = "7".
Proof. repeat split; vm_compute; reflexivity. Qed.

Example repr_samples :
  repr (add (of_decimal false 1 (-1)) (of_decimal false 2 (-1)))
  = "0.30000000000000004"
  /\ repr (of_decimal false 1 16) = "1e+16"
  /\ repr (of_decimal false 1 15) = "1000000000000000.0"
  /\ repr (of_decimal false 1 (-4)) = "0.0001"
  /\ repr (of_decimal false 1 (-5)) = "1e-05"
  /\ repr (of_decimal true 25 (-1)) = "-2.5"
  /\ repr (of_decimal false 5 (-324)) = "5e-324".
Proof. repeat split; vm_compute; reflexivity. Qed.

Lemma nonneg_not_negative (x : float) :
  nonneg x = true <-> not_negative x.
Proof.
  destruct x as [s | s | | s m e]; try destruct s; cbn; intuition congruence.
Qed.

Lemma mul_comm (x y : float) : mul x y = mul y x.
Proof.
  unfold mul.
  destruct x as [sx | sx | | sx mx ex], y as [sy | sy | | sy my ey];
    cbn; try reflexivity; try (now rewrite xorb_comm).
  now rewrite xorb_comm, Pos.mul_comm, Z.add_comm.
Qed.

Lemma shr_1_nonneg (r : shr_record) :
  0 <= shr_m r -> 0 <= shr_m (shr_1 r).
Proof.
  destruct r as [m b c]; cbn.
  destruct m as [| p | p]; [cbn; lia | | lia].
  intros _. destruct p; cbn; lia.
Qed.

Lemma iter_shr_1_nonneg (p : positive) (r : shr_record) :
  0 <= shr_m r -> 0 <= shr_m (SpecFloat.iter_pos shr_1 p r).
Proof.
  revert r. induction p as [p IH | p IH |]; intros r Hr; cbn.
  - apply IH, IH, shr_1_nonneg, Hr.
  - apply IH, IH, Hr.
  - apply shr_1_nonneg, Hr.
Qed.

Lemma shr_fexp_nonneg (m e : Z) (l : location) :
  0 <= m -> 0 <= shr_m (fst (shr_fexp prec emax m e l)).
Proof.
  intros Hm. unfold shr_fexp, shr.
  assert (H0 : 0 <= shr_m (shr_record_of_loc m l))
    by (destruct l as [| []]; exact Hm).
  destruct (fexp prec emax (Zdigits2 m + e) - e); cbn [fst]; auto.
  now apply iter_shr_1_nonneg.
Qed.

Lemma round_nearest_even_nonneg (m : Z) (l : location) :
  0 <= m -> 0 <= round_nearest_even m l.
Proof.
  intros Hm. destruct l as [| []]; cbn; try lia.
  destruct (Z.even m); lia.
Qed.

Lemma binary_round_aux_signed (s : bool) (m e : Z) (l : location) :
  0 <= m -> signed s (binary_round_aux prec emax s m e l).
Proof.
  intros Hm. unfold binary_round_aux.
  pose proof (shr_fexp_nonneg m e l Hm) as H1.
  destruct (shr_fexp prec emax m e l) as [mrs' e'] eqn:E1. cbn [fst] in H1.
  pose proof (shr_fexp_nonneg _ e' loc_Exact
                (round_nearest_even_nonneg _ (loc_of_shr_record mrs') H1))
    as H2.
  destruct (shr_fexp prec emax _ e' loc_Exact) as [mrs'' e''].
  cbn [fst] in H2.
  destruct (shr_m mrs'') as [| p | p]; [reflexivity | | lia].
  destruct (e'' <=? emax - prec); reflexivity.
Qed.

Lemma binary_round_signed (s : bool) (m : positive) (e : Z) :
  signed s (binary_round prec emax s m e).
Proof.
  unfold binary_round.
  destruct (shl_align m e _) as [mz ez].
  apply binary_round_aux_signed. lia.
Qed.

Lemma signed_false_not_negative (x : float) :
  signed false x -> not_negative x.
Proof. destruct x as [s | s | | s m e]; cbn; intros; subst; auto. Qed.

(** A product with a positive finite constant keeps the operand out of
    the negative numbers. *)
Lemma mul_not_negative (x : float) (m : positive) (e : Z) :
  not_negative x -> not_negative (mul x (S754_finite false m e)).
Proof.
  destruct x as [s | [] | | [] mx ex]; cbn; auto; try tauto.
  intros _. apply signed_false_not_negative.
  apply (binary_round_aux_signed false). lia.
Qed.

Lemma add_not_negative (x y : float) :
  not_negative x -> not_negative y -> not_negative (add x y).
Proof.
  destruct x as [sx | [] | | [] mx ex], y as [sy | [] | | [] my ey];
    cbn; auto; try tauto.
  - destruct sx, sy; cbn; auto.
  - intros _ _.
    destruct (shl_align mx ex (Z.min ex ey)) as [a ea].
    destruct (shl_align my ey (Z.min ex ey)) as [b eb]. cbn.
    apply signed_false_not_negative, binary_round_signed.
Qed.

Lemma eqb_refl_not_negative (x : float) :
  not_negative x -> eqb x x = true.
Proof.
  destruct x as [s | [] | | [] m e]; cbn; try tauto; intros _.
  change (PosDef.Pos.compare_cont Eq m m) with (Pos.compare_cont Eq m m).
  now rewrite Z.compare_refl, Pos.compare_cont_refl.
Qed.

Lemma calculate_footprint_not_negative (e t w : float) :
  not_negative e -> not_negative t -> not_negative w ->
  not_negative (calculate_footprint e t w).
Proof.
  intros He Ht Hw. unfold calculate_footprint.
  repeat apply add_not_negative; apply mul_not_negative; assumption.
Qed.

(** C1. For non-negative inputs [calculate_footprint e t w] is the
    float [0.233*e + 0.12*t + 0.5*w]: the two expressions are the same
    binary64 number, Python's [==] holds between them, and the result is
    a non-negative number (never NaN). The function is a total function
    of its three arguments: it reads and changes no state and cannot
    raise. *)
Theorem calculate_footprint_formula (e t w : float) :
  nonneg e = true -> nonneg t = true -> nonneg w = true ->
  calculate_footprint e t w = footprint_formula e t w
  /\ eqb (calculate_footprint e t w) (footprint_formula e t w) = true
  /\ nonneg (calculate_footprint e t w) = true.
Proof.
  intros He Ht Hw. apply nonneg_not_negative in He, Ht, Hw.
  assert (Heq : calculate_footprint e t w = footprint_formula e t w).
  { unfold calculate_footprint, footprint_formula.
    now rewrite (mul_comm e), (mul_comm t), (mul_comm w). }
  pose proof (calculate_footprint_not_negative e t w He Ht Hw) as Hn.
  split; [exact Heq |]. split.
  - rewrite <- Heq. now apply eqb_refl_not_negative.
  - now apply nonneg_not_negative.
Qed.

Lemma calculate_footprint_formula_witness :
  let ten := of_decimal false 10 0 in
  let five := of_decimal false 5 0 in
  let two := of_decimal false 2 0 in
  (nonneg ten = true /\ nonneg five = true /\ nonneg two = true)
  /\ calculate_footprint ten five two = footprint_formula ten five two
  /\ eqb (calculate_footprint ten five two) (footprint_formula ten five two)
     = true
  /\ nonneg (calculate_footprint ten five two) = true.
Proof.
  intros ten five two.
  split; [repeat split |].
  apply (calculate_footprint_formula ten five two); reflexivity.
Defined.

End Calculator.


(* ===================================================================== *)
(** ** Record Store *)
(* ===================================================================== *)

Section RecordStore.

Lemma exists_absent (w : World) (p : string) :
  fs w !! p = None -> bool_decide (is_Some (fs w !! p)) = false.
Proof. intros H. rewrite H. reflexivity. Qed.

Lemma exists_present (w : World) (p : string) (f : file) :
  fs w !! p = Some f -> bool_decide (is_Some (fs w !! p)) = true.
Proof. intros H. rewrite H. reflexivity. Qed.

(** The rows [to_csv] writes for one submission. *)
Lemma csv_rows_details (r : ClientRecord) (header : bool) :
  csv_rows (DataFrame_of (details r)) header
  = ((if header then [HEADER] else []) ++ [record_row r])%list.
Proof. destruct header; reflexivity. Qed.

(** What one call does to the world, whatever the store holds. *)
Lemma append_to_csv_run (r : ClientRecord) (w : World) :
  append_to_csv (details r) w
  = Ok tt
      (set_trace (trace w ++ [Print ("Data for " ++ Client r ++ " added to CSV.")])
         (set_fs (<[CSV_FILE :=
                      match fs w !! CSV_FILE with
                      | None => CsvFile [HEADER; record_row r]
                      | Some (CsvFile t) => CsvFile (t ++ [record_row r])
                      | Some _ => Corrupt
                      end]> (fs w)) w)).
Proof.
  unfold append_to_csv, bind, path_exists, to_csv, write_file.
  destruct (fs w !! CSV_FILE) as [f |] eqn:E; cbn.
  - rewrite E. destruct f; reflexivity.
  - reflexivity.
Qed.

Lemma append_all_existing (rs : list ClientRecord) :
  forall (w : World) (t : list (list string)),
    fs w !! CSV_FILE = Some (CsvFile t) ->
    exists w', append_all rs w = Ok tt w'
               /\ fs w' = <[CSV_FILE := CsvFile (t ++ map record_row rs)]> (fs w).
Proof.
  induction rs as [| r rs IH]; intros w t Ht; cbn [append_all].
  - exists w. split; [reflexivity |].
    rewrite app_nil_r. symmetry. now apply insert_id.
  - unfold bind. rewrite append_to_csv_run, Ht.
    edestruct IH as (w' & Hrun & Hfs);
      [| exists w'; split; [exact Hrun |]].
    + cbn. apply lookup_insert_eq.
    + rewrite Hfs. cbn. rewrite insert_insert_eq.
      now rewrite <- app_assoc.
Qed.

(** C2. Appending a submission to a store that does not exist writes
    the header row and the record; appending to an existing table adds
    the record row after the rows already there and nothing else; so a
    fresh store that received [N >= 1] submissions is the header
    [Client, energy_kwh, transport_km, waste_kg, total_footprint]
    followed by the [N] rows, in order. No other file changes. *)
Theorem append_to_csv_single_header
  (r : ClientRecord) (rs : list ClientRecord) (w : World) :
  (fs w !! CSV_FILE = None ->
   exists w', append_to_csv (details r) w = Ok tt w'
              /\ fs w' = <[CSV_FILE := CsvFile [HEADER; record_row r]]> (fs w))
  /\ (forall t, fs w !! CSV_FILE = Some (CsvFile t) ->
       exists w', append_to_csv (details r) w = Ok tt w'
                  /\ fs w' = <[CSV_FILE := CsvFile (t ++ [record_row r])]> (fs w))
  /\ (fs w !! CSV_FILE = None ->
       exists w', append_all (r :: rs) w = Ok tt w'
                  /\ fs w' = <[CSV_FILE :=
                                 CsvFile (HEADER :: map record_row (r :: rs))]> (fs w)
                  /\ length (HEADER :: map record_row (r :: rs))
                     = S (length (r :: rs))).
Proof.
  split; [| split].
  - intros Hno. eexists. split; [apply append_to_csv_run |].
    cbn. now rewrite Hno.
  - intros t Ht. eexists. split; [apply append_to_csv_run |].
    cbn. now rewrite Ht.
  - intros Hno. cbn [append_all]. unfold bind.
    rewrite append_to_csv_run, Hno.
    edestruct (append_all_existing rs) as (w' & Hrun & Hfs);
      [| exists w'; split; [exact Hrun |]].
    + cbn. apply lookup_insert_eq.
    + split.
      * rewrite Hfs. cbn. now rewrite insert_insert_eq.
      * cbn. now rewrite length_map.
Qed.

Lemma append_to_csv_single_header_witness :
  (fs (world0 []) !! CSV_FILE = None
   /\ exists w', append_all [acme; acme] (world0 []) = Ok tt w'
                 /\ fs w' = <[CSV_FILE :=
                                CsvFile [HEADER; record_row acme; record_row acme]]>
                              (fs (world0 []))
                 /\ length [HEADER; record_row acme; record_row acme] = 3%nat)
  /\ (let w := world_with {[ CSV_FILE := CsvFile [HEADER] ]} in
      fs w !! CSV_FILE = Some (CsvFile [HEADER])
      /\ exists w', append_to_csv (details acme) w = Ok tt w'
                    /\ fs w' = <[CSV_FILE := CsvFile [HEADER; record_row acme]]>
                                 (fs w)).
Proof.
  split.
  - split; [reflexivity |].
    destruct (append_to_csv_single_header acme [acme] (world0 []))
      as (_ & _ & H).
    apply H. reflexivity.
  - intros w. split; [reflexivity |].
    destruct (append_to_csv_single_header acme [] w) as (_ & H & _).
    apply (H [HEADER]). reflexivity.
Defined.

End RecordStore.

(* ===================================================================== *)
(** ** Trend Renderer *)
(* ===================================================================== *)

(** A value is none of the elements of a list written out. *)
Ltac not_in_list :=
  let H := fresh in
  intros H;
  repeat (apply elem_of_cons in H as [H | H]; [discriminate |]);
  now apply elem_of_nil in H.

Section TrendRenderer.


Lemma index_of_None (c : string) (l : list string) :
  index_of c l = None <-> c ∉ l.
Proof.
  induction l as [| x l IH]; cbn.
  - split; [intros _ H; now apply elem_of_nil in H | reflexivity].
  - destruct (String.eqb x c) eqn:E.
    + apply String.eqb_eq in E. subst x.
      split; [discriminate | intros H; destruct H; apply list_elem_of_here].
    + apply String.eqb_neq in E.
      destruct (index_of c l); cbn.
      * split; [discriminate |].
        intros H. exfalso. apply H. apply list_elem_of_further.
        destruct IH as [_ IH].
        destruct (decide (c ∈ l)) as [Hin | Hin]; [exact Hin |].
        now specialize (IH Hin).
      * split; [| reflexivity]. intros _ H.
        apply elem_of_cons in H as [H | H]; [now subst |].
        now apply IH in H.
Qed.

Lemma index_of_elem (c : string) (l : list string) :
  c ∈ l -> exists i, index_of c l = Some i.
Proof.
  intros H. destruct (index_of c l) eqn:E; [eauto |].
  now apply index_of_None in E.
Qed.

Lemma index_of_lt (c : string) (l : list string) (i : nat) :
  index_of c l = Some i -> (i < length l)%nat.
Proof.
  revert i. induction l as [| x l IH]; intros i; cbn; [discriminate |].
  destruct (String.eqb x c).
  - intros [= <-]. lia.
  - destruct (index_of c l) as [j |]; cbn; [| discriminate].
    intros [= <-]. specialize (IH j eq_refl). lia.
Qed.

Lemma nth_map_seq {A} (f : nat -> A) (n i : nat) (d : A) :
  (i < n)%nat -> nth i (map f (seq 0 n)) d = f i.
Proof.
  intros Hi. rewrite (nth_indep _ d (f 0%nat)) by (now rewrite length_map, length_seq).
  rewrite map_nth. now rewrite seq_nth.
Qed.

(** [df[c]] on a frame read from a table is the column under the name
    [c], read as pandas types it. *)
Lemma column_read_table (h : list string) (t : list (list string))
  (c : string) (i : nat) (w : World) :
  index_of c h = Some i ->
  column (read_table h t) c w
  = Ok (cells_of h t c) (set_trace (trace w ++ [GetColumn c]) w).
Proof.
  intros Hi. unfold column, bind, emit, cells_of, read_table. cbn.
  rewrite Hi. unfold ret. f_equal.
  unfold read_column, raw_column. rewrite !map_map.
  apply map_ext. intros r.
  rewrite nth_map_seq by (now apply index_of_lt in Hi).
  reflexivity.
Qed.


Lemma generate_graph_draws (w : World) (h : list string)
  (t : list (list string)) :
  fs w !! CSV_FILE = Some (CsvFile (h :: t)) ->
  rows_fit h t ->
  Forall (fun c => c ∈ h) ("Client" :: plotted_columns) ->
  plottable (cells_of h t "Client") = true ->
  generate_graph w
  = Ok tt (set_trace (trace w ++ draw_events h)
             (set_fs (<[GRAPH_FILE := PngFile (chart_of h t)]> (fs w)) w)).
Proof.
  destruct w as [inp tr files ds]. cbn [fs trace stdin dirs].
  intros Hf Hfit Hcols Hplot.
  apply Forall_cons in Hcols as [Hc Hcols].
  apply Forall_cons in Hcols as [Ht Hcols].
  apply Forall_cons in Hcols as [He Hcols].
  apply Forall_cons in Hcols as [Hk Hcols].
  apply Forall_cons in Hcols as [Hw _].
  destruct (index_of_elem _ _ Hc) as [ic Hic].
  destruct (index_of_elem _ _ Ht) as [it Hit].
  destruct (index_of_elem _ _ He) as [ie Hie].
  destruct (index_of_elem _ _ Hk) as [ik Hik].
  destruct (index_of_elem _ _ Hw) as [iw Hiw].
  unfold generate_graph, call, bind, emit, path_exists, print, read_csv,
    has_column, savefig, write_file, ret, plt_bar, plt_plot, set_trace, set_fs.
  cbn -[column read_table cells_of]. rewrite Hf. cbn -[column read_table cells_of].
  rewrite Hf. rewrite Hfit. cbn -[column read_table cells_of].
  rewrite bool_decide_eq_true_2 by exact Hc.
  cbn -[column read_table cells_of].
  rewrite (column_read_table h t "Client" ic _ Hic). cbn -[column read_table cells_of].
  rewrite (column_read_table h t "total_footprint" it _ Hit). cbn -[column read_table cells_of].
  rewrite Hplot. cbn -[column read_table cells_of].
  rewrite (column_read_table h t "Client" ic _ Hic). cbn -[column read_table cells_of].
  rewrite (column_read_table h t "energy_kwh" ie _ Hie). cbn -[column read_table cells_of].
  rewrite Hplot. cbn -[column read_table cells_of].
  rewrite (column_read_table h t "Client" ic _ Hic). cbn -[column read_table cells_of].
  rewrite (column_read_table h t "transport_km" ik _ Hik). cbn -[column read_table cells_of].
  rewrite Hplot. cbn -[column read_table cells_of].
  rewrite (column_read_table h t "Client" ic _ Hic). cbn -[column read_table cells_of].
  rewrite (column_read_table h t "waste_kg" iw _ Hiw). cbn -[column read_table cells_of].
  rewrite Hplot. cbn -[column read_table cells_of]. unfold draw_events, chart_of.
  rewrite <- !app_assoc. reflexivity.
Qed.


(** A table none of whose rows is longer than the header is tokenized,
    and the names apply from the first cell on. *)
Lemma rows_fit_short (h : list string) (t : list (list string)) :
  Forall (fun r => (length r <= length h)%nat) t ->
  rows_fit h t /\ table_width h t = length h.
Proof.
  intros Hall. unfold rows_fit.
  assert (Hw : table_width h t = length h).
  { destruct Hall as [| r t Hr _]; cbn; [reflexivity | lia]. }
  split; [| exact Hw]. rewrite Hw. unfold too_long.
  apply not_true_is_false. intros Hex.
  apply existsb_exists in Hex as (r & Hin & Hlt).
  apply Nat.ltb_lt in Hlt.
  assert (Hin' : In r t) by (destruct t; [destruct Hin | now right]).
  rewrite Forall_forall in Hall.
  specialize (Hall r (proj2 (list_elem_of_In _ _) Hin')). lia.
Qed.

Example read_column_samples :
  read_column ["Acme"; "NA"; ""; "Bob"]
  = [VStr "Acme"; VFloat S754_nan; VFloat S754_nan; VStr "Bob"]
  /\ read_column ["10.0"; ""; "inf"; "1e+16"]
     = [VFloat (of_decimal false 10 0); VFloat S754_nan;
        VFloat (S754_infinity false); VFloat (of_decimal false 1 16)]
  /\ read_column ["1"; "1_0"] = [VStr "1"; VStr "1_0"]
  /\ plottable (read_column ["Acme"; "NA"]) = false
  /\ plottable (read_column ["Acme"; "Bob"]) = true
  /\ plottable (read_column ["NA"; "7"]) = true
  /\ too_long (table_width ["a"; "b"] [["1"; "2"; "3"]; ["4"]])
       [["1"; "2"; "3"]; ["4"]] = false
  /\ too_long (table_width ["a"; "b"] [["1"]; ["4"; "5"; "6"]])
       [["1"]; ["4"; "5"; "6"]] = true.
Proof. repeat split; vm_compute; reflexivity. Qed.

Lemma forallb_map {A B} (f : B -> bool) (g : A -> B) (l : list A) :
  forallb f (map g l) = forallb (fun x => f (g x)) l.
Proof. induction l as [| x l IH]; cbn; [reflexivity | now rewrite IH]. Qed.

(** A column without a missing cell holds numbers only or text only. *)
Lemma plottable_read_column (raw : list string) :
  forallb (fun s => negb (is_na s)) raw = true ->
  plottable (read_column raw) = true.
Proof.
  intros Hna. unfold plottable, read_column.
  rewrite !forallb_map.
  destruct (numeric_column raw) eqn:Hnum.
  - apply orb_true_iff. right.
    apply forallb_forall. intros s Hin.
    unfold numeric_column in Hnum.
    rewrite forallb_forall in Hnum, Hna.
    specialize (Hnum s Hin). specialize (Hna s Hin).
    unfold read_cell. destruct (is_na s); [discriminate |].
    cbn in Hnum. apply bool_decide_eq_true_1 in Hnum as [x Hx].
    now rewrite Hx.
  - apply orb_true_iff. left.
    apply forallb_forall. intros s Hin.
    rewrite forallb_forall in Hna. specialize (Hna s Hin).
    unfold read_cell. now destruct (is_na s).
Qed.

Lemma read_column_length (raw : list string) :
  length (read_column raw) = length raw.
Proof. unfold read_column. apply length_map. Qed.

(** The store is absent: the message, and nothing else happens. *)
Lemma generate_graph_absent (w : World) :
  fs w !! CSV_FILE = None ->
  generate_graph w
  = Ok tt (set_trace (trace w ++ [Enter FGraph; Print no_data_message;
                                  Exit FGraph]) w).
Proof.
  intros Hno. unfold generate_graph, call, bind, emit, path_exists, print.
  cbn. rewrite Hno. cbn. unfold set_trace. cbn.
  now rewrite <- !app_assoc.
Qed.

(** The header lacks [Client]: the columns are printed, then the error
    message, and nothing else happens. *)
Lemma generate_graph_no_client (w : World) (h : list string)
  (t : list (list string)) :
  fs w !! CSV_FILE = Some (CsvFile (h :: t)) ->
  rows_fit h t ->
  "Client" ∉ h ->
  generate_graph w
  = Ok tt (set_trace (trace w ++ [Enter FGraph; PrintColumns h;
                                  Print no_client_message; Exit FGraph]) w).
Proof.
  intros Hf Hfit Hh.
  unfold generate_graph, call, bind, emit, path_exists, print, read_csv,
    has_column.
  cbn -[read_table]. rewrite Hf. cbn -[read_table]. rewrite Hf, Hfit.
  cbn -[read_table].
  rewrite bool_decide_eq_false_2 by exact Hh.
  cbn. unfold set_trace. cbn. now rewrite <- !app_assoc.
Qed.

(** A data row after the first is too long: [read_csv] raises before
    anything is printed. *)
Lemma generate_graph_too_long (w : World) (h : list string)
  (t : list (list string)) :
  fs w !! CSV_FILE = Some (CsvFile (h :: t)) ->
  too_long (table_width h t) t = true ->
  generate_graph w
  = Raise ParserError (set_trace (trace w ++ [Enter FGraph]) w).
Proof.
  intros Hf Hlong.
  unfold generate_graph, call, bind, emit, path_exists, read_csv.
  cbn -[read_table]. rewrite Hf. cbn -[read_table]. rewrite Hf, Hlong.
  reflexivity.
Qed.

(** The store carries the program's header, rows of five cells and no
    missing name: the chart is drawn from every stored row, in file
    order, and saved. *)
Lemma generate_graph_renders (w : World) (t : list (list string)) :
  fs w !! CSV_FILE = Some (CsvFile (HEADER :: t)) ->
  Forall (fun r => (length r <= 5)%nat) t ->
  forallb (fun r => negb (is_na (nth 0 r ""))) t = true ->
  generate_graph w
  = Ok tt (set_trace (trace w ++ draw_events HEADER)
             (set_fs (<[GRAPH_FILE := PngFile (chart_of HEADER t)]> (fs w)) w))
  /\ length (s_x (c_bar (chart_of HEADER t))) = length t.
Proof.
  intros Hf Hlen Hna.
  destruct (rows_fit_short HEADER t Hlen) as [Hfit Hw].
  assert (Hx : cells_of HEADER t "Client"
               = read_column (raw_column 0 t)).
  { unfold cells_of. cbn [index_of HEADER]. rewrite Hw. reflexivity. }
  split.
  - apply generate_graph_draws; [exact Hf | exact Hfit | |].
    + unfold HEADER, plotted_columns. repeat constructor.
    + rewrite Hx. apply plottable_read_column.
      unfold raw_column. now rewrite forallb_map.
  - cbn [chart_of c_bar s_x]. rewrite Hx, read_column_length.
    unfold raw_column. apply length_map.
Qed.

(** C3, as the code has it. When the stored table is one [read_csv]
    tokenizes (no data row after the first is longer than the table is
    wide) and its header row has no [Client] column, [generate_graph]
    prints the columns and the error message and returns: it raises
    nothing, reads no column of the table and leaves every file, the
    chart included, as it was. *)
Theorem generate_graph_missing_client_column
  (w : World) (h : list string) (t : list (list string)) :
  fs w !! CSV_FILE = Some (CsvFile (h :: t)) ->
  rows_fit h t ->
  "Client" ∉ h ->
  exists w' cols added,
    generate_graph w = Ok tt w'
    /\ trace w' = (trace w ++ added)%list
    /\ added = [Enter FGraph; PrintColumns cols; Print no_client_message;
                Exit FGraph]
    /\ (forall c, GetColumn c ∉ added)
    /\ fs w' = fs w
    /\ fs w' !! GRAPH_FILE = fs w !! GRAPH_FILE.
Proof.
  intros Hf Hfit Hh. exists (set_trace (trace w ++ [Enter FGraph; PrintColumns h;
                                  Print no_client_message; Exit FGraph]) w), h.
  eexists.
  split; [now apply (generate_graph_no_client w h t) |].
  repeat split; try reflexivity.
  intros c Hc.
  repeat (apply elem_of_cons in Hc as [Hc | Hc]; [discriminate |]).
  now apply elem_of_nil in Hc.
Qed.

Lemma generate_graph_missing_client_column_witness :
  let w := world_with {[ CSV_FILE := CsvFile [["name"; "value"]; ["a"; "1"]] ]} in
  exists w' cols added,
    generate_graph w = Ok tt w'
    /\ trace w' = (trace w ++ added)%list
    /\ added = [Enter FGraph; PrintColumns cols;
                Print no_client_message; Exit FGraph]
    /\ (forall c, GetColumn c ∉ added)
    /\ fs w' = fs w
    /\ fs w' !! GRAPH_FILE = fs w !! GRAPH_FILE.
Proof.
  intros w.
  apply (generate_graph_missing_client_column w ["name"; "value"] [["a"; "1"]]).
  - reflexivity.
  - reflexivity.
  - intros Hc.
    repeat (apply elem_of_cons in Hc as [Hc | Hc]; [discriminate |]).
    now apply elem_of_nil in Hc.
Defined.

(** C3, as stated, fails on a table with a data row longer than the
    rows above it: the header has no [Client] column, yet the call ends
    in the [ParserError] of [read_csv], which nothing catches, before
    the check is reached and without the error message. *)
Lemma generate_graph_ragged_store_counterexample :
  let h := ["name"; "value"] in
  let w := world_with
             {[ CSV_FILE := CsvFile [h; ["a"; "1"];
                                     ["b"; "2"; "3"; "4"; "5"]] ]} in
  ("Client" ∉ h)
  /\ exists w', generate_graph w = Raise ParserError w'
                /\ Print no_client_message ∉ trace w'.
Proof.
  intros h w. split.
  - intros Hc.
    repeat (apply elem_of_cons in Hc as [Hc | Hc]; [discriminate |]).
    now apply elem_of_nil in Hc.
  - eexists.
    split; [eapply (generate_graph_too_long w h); reflexivity |].
    intros Hc. cbn in Hc.
    repeat (apply elem_of_cons in Hc as [Hc | Hc]; [discriminate |]).
    now apply elem_of_nil in Hc.
Qed.

(** C4, as the code has it. When the store file is absent,
    [generate_graph] prints the no-data message and returns, and no file,
    the chart included, is created or changed. *)
Theorem generate_graph_absent_store (w : World) :
  fs w !! CSV_FILE = None ->
  exists w',
    generate_graph w = Ok tt w'
    /\ trace w' = (trace w ++ [Enter FGraph; Print no_data_message;
                                Exit FGraph])%list
    /\ fs w' = fs w
    /\ fs w' !! GRAPH_FILE = fs w !! GRAPH_FILE.
Proof.
  intros Hno. eexists. split; [now apply generate_graph_absent |].
  repeat split; reflexivity.
Qed.

Lemma generate_graph_absent_store_witness :
  fs (world0 []) !! CSV_FILE = None
  /\ exists w',
       generate_graph (world0 []) = Ok tt w'
       /\ trace w' = [Enter FGraph; Print no_data_message; Exit FGraph]
       /\ fs w' = fs (world0 [])
       /\ fs w' !! GRAPH_FILE = fs (world0 []) !! GRAPH_FILE.
Proof.
  split; [reflexivity |].
  apply (generate_graph_absent_store (world0 [])). reflexivity.
Defined.

(** C4, as stated, fails on an empty store. With the header row alone
    in the store the chart file is created and no no-data message is
    printed; with a store of zero bytes [read_csv] raises
    [EmptyDataError], which nothing catches. *)
Lemma generate_graph_empty_store_counterexample :
  (let w := world_with {[ CSV_FILE := CsvFile [HEADER] ]} in
   store_empty w
   /\ fs w !! GRAPH_FILE = None
   /\ exists w', generate_graph w = Ok tt w'
                 /\ is_Some (fs w' !! GRAPH_FILE)
                 /\ Print no_data_message ∉ trace w')
  /\ (let w := world_with {[ CSV_FILE := CsvFile [] ]} in
      store_empty w
      /\ exists w', generate_graph w = Raise EmptyDataError w'
                    /\ Print no_data_message ∉ trace w').
Proof.
  split; intros w.
  - split; [right; exists HEADER; reflexivity |].
    split; [reflexivity |].
    destruct (generate_graph_renders w []) as (Hrun & _);
      [reflexivity | constructor | reflexivity |].
    eexists. split; [exact Hrun |]. split.
    + cbn. rewrite lookup_insert_eq. eauto.
    + intros Hc. cbn in Hc.
      repeat (apply elem_of_cons in Hc as [Hc | Hc]; [discriminate |]).
      now apply elem_of_nil in Hc.
  - split; [left; reflexivity |].
    eexists. split; [reflexivity |].
    intros Hc. cbn in Hc.
    repeat (apply elem_of_cons in Hc as [Hc | Hc]; [discriminate |]).
    now apply elem_of_nil in Hc.
Qed.

End TrendRenderer.

(* ===================================================================== *)
(** ** Report Generator *)
(* ===================================================================== *)

Section ReportGenerator.

(** What one call does to the world, when the path has a directory
    part. *)
Lemma create_report_run (r : ClientRecord) (file_path : string) (w : World) :
  dirname file_path <> "" ->
  spells_directory file_path = false ->
  create_report (details r) file_path w
  = Ok tt
      {| stdin := stdin w;
         trace :=
           trace w
           ++ [Enter (FReport file_path)]
           ++ (if chart_present w
               then [Print ("Added " ++ GRAPH_FILE ++ " to " ++ file_path)]
               else [])
           ++ [Print ("PDF Report Created: " ++ file_path);
               Exit (FReport file_path)];
         fs := <[file_path := PdfFile (report_ops r (chart_present w))]> (fs w);
         dirs := dirs w ∪ list_to_set
                   (ancestors (S (String.length (dirname file_path)))
                      (dirname file_path)) |}.
Proof.
  intros Hdir Hfile. apply String.eqb_neq in Hdir.
  unfold create_report, call, bind, emit, path_exists, print, makedirs,
    save, write_file, chart_present.
  cbn -[ancestors dirname String.eqb spells_directory]. rewrite Hdir.
  cbn -[ancestors dirname spells_directory].
  destruct (bool_decide (is_Some (fs w !! GRAPH_FILE)));
    cbn -[ancestors dirname spells_directory]; rewrite Hfile;
    unfold set_trace, set_fs;
    cbn -[ancestors dirname]; rewrite <- !app_assoc; reflexivity.
Qed.





End ReportGenerator.

(* ===================================================================== *)
(** ** Session Controller *)
(* ===================================================================== *)

Arguments PyStr.to_float : simpl never.
Arguments PyStr.lower : simpl never.
Arguments PyStr.strip : simpl never.
Arguments calculate_footprint : simpl never.
Arguments csv_cell : simpl never.
Arguments String.eqb : simpl never.
Arguments append_to_csv : simpl never.
Arguments client_details : simpl never.

Section SessionController.

(** One pass in which the three numbers parse: the name is read, the
    submission is appended to the accumulator and to the store, and the
    answer decides. *)
Lemma loop_body_valid (acc : list dict) (w : World)
  (se st sw name answer : string) (rest : list string) (e t k : float) :
  stdin w = se :: st :: sw :: name :: answer :: rest ->
  PyStr.to_float se = Some e ->
  PyStr.to_float st = Some t ->
  PyStr.to_float sw = Some k ->
  loop_body acc w
  = Ok (if String.eqb (PyStr.lower (PyStr.strip answer)) "yes"
        then Continue else Break,
        (acc ++ [details (submission name e t k)])%list)
      {| stdin := rest;
         trace := trace w
                  ++ Print (newline ++ "Enter client data:")
                  :: numeric_prompts
                  ++ [Prompt "Client Name: ";
                      Print ("Data for " ++ name ++ " added to CSV.");
                      Prompt "Add another client? (yes/no): "];
         fs := store_after (fs w) (submission name e t k);
         dirs := dirs w |}.
Proof.
  destruct w as [inp tr files ds]. cbn [stdin trace fs dirs].
  intros -> He Ht Hk.
  unfold loop_body, try_ValueError, read_numbers, bind, input, emit, print,
    float_of, ret.
  cbn. rewrite He. cbn. rewrite Ht. cbn. rewrite Hk. cbn.
  change (client_details name e t k (calculate_footprint e t k))
    with (details (submission name e t k)).
  rewrite append_to_csv_run. cbn.
  destruct (String.eqb (PyStr.lower (PyStr.strip answer)) "yes"); cbn;
    unfold ret, store_after; rewrite <- !app_assoc; reflexivity.
Qed.

(** One pass in which one of the three numbers does not parse: the
    prompts up to the offending one, the error message, and back to the
    top of the loop with the accumulator and the disk as they were. *)
Lemma loop_body_invalid (acc : list dict) (w : World)
  (good : list string) (bad : string) (rest : list string) :
  stdin w = (good ++ bad :: rest)%list ->
  (length good < 3)%nat ->
  Forall (fun s => is_Some (PyStr.to_float s)) good ->
  PyStr.to_float bad = None ->
  loop_body acc w
  = Ok (Continue, acc)
      {| stdin := rest;
         trace := trace w
                  ++ Print (newline ++ "Enter client data:")
                  :: take (S (length good)) numeric_prompts
                  ++ [Print invalid_message];
         fs := fs w;
         dirs := dirs w |}.
Proof.
  destruct w as [inp tr files ds]. cbn [stdin trace fs dirs].
  intros -> Hlen Hgood Hbad.
  unfold loop_body, try_ValueError, read_numbers, bind, input, emit, print,
    float_of, ret.
  destruct good as [| g1 [| g2 [| g3 good]]]; [| | | cbn in Hlen; lia].
  - cbn. rewrite Hbad. cbn. rewrite <- !app_assoc. reflexivity.
  - apply Forall_cons in Hgood as [[x1 H1] _].
    cbn. rewrite H1. cbn. rewrite Hbad. cbn.
    rewrite <- !app_assoc. reflexivity.
  - apply Forall_cons in Hgood as [[x1 H1] Hgood].
    apply Forall_cons in Hgood as [[x2 H2] _].
    cbn. rewrite H1. cbn. rewrite H2. cbn. rewrite Hbad. cbn.
    rewrite <- !app_assoc. reflexivity.
Qed.

Lemma calls_app (t1 t2 : list event) :
  calls (t1 ++ t2) = (calls t1 ++ calls t2)%list.
Proof. apply List.filter_app. Qed.

(** Every way one pass can end. It never runs out of fuel; it raises
    only when the terminal has no more lines; otherwise it has read at
    least one line, recorded no call, and either left accumulator and
    disk alone or added one submission to both. *)
Lemma loop_body_outcome (acc : list dict) (w : World) :
  match loop_body acc w with
  | OutOfFuel => False
  | Raise e w' => e = EOFError
  | Ok (c, acc') w' =>
      (length (stdin w') < length (stdin w))%nat
      /\ calls (trace w') = calls (trace w)
      /\ ((c = Continue /\ acc' = acc /\ fs w' = fs w)
          \/ exists r, acc' = (acc ++ [details r])%list
                       /\ fs w' = store_after (fs w) r)
  end.
Proof.
  destruct (stdin w) as [| s1 inp] eqn:E.
  { destruct w as [inp tr files ds]. cbn in E. subst inp.
    reflexivity. }
  destruct (PyStr.to_float s1) as [x1 |] eqn:H1.
  2:{ rewrite (loop_body_invalid acc w [] s1 inp E); cbn;
        [| lia | constructor | exact H1].
      rewrite ?E. cbn. split; [lia |]. split; [| left; auto].
      rewrite calls_app. cbn. now rewrite app_nil_r. }
  destruct inp as [| s2 inp].
  { destruct w as [inp tr files ds]. cbn in E. subst inp.
    unfold loop_body, try_ValueError, read_numbers, bind, input, emit,
      print, float_of, ret. cbn. rewrite H1. reflexivity. }
  destruct (PyStr.to_float s2) as [x2 |] eqn:H2.
  2:{ rewrite (loop_body_invalid acc w [s1] s2 inp E); cbn;
        [| lia | repeat constructor; eauto | exact H2].
      rewrite ?E. cbn. split; [lia |]. split; [| left; auto].
      rewrite calls_app. cbn. now rewrite app_nil_r. }
  destruct inp as [| s3 inp].
  { destruct w as [inp tr files ds]. cbn in E. subst inp.
    unfold loop_body, try_ValueError, read_numbers, bind, input, emit,
      print, float_of, ret. cbn. rewrite H1. cbn. rewrite H2. reflexivity. }
  destruct (PyStr.to_float s3) as [x3 |] eqn:H3.
  2:{ rewrite (loop_body_invalid acc w [s1; s2] s3 inp E); cbn;
        [| lia | repeat constructor; eauto | exact H3].
      rewrite ?E. cbn. split; [lia |]. split; [| left; auto].
      rewrite calls_app. cbn. now rewrite app_nil_r. }
  destruct inp as [| name [| answer inp]].
  - destruct w as [inp tr files ds]. cbn in E. subst inp.
    unfold loop_body, try_ValueError, read_numbers, bind, input, emit,
      print, float_of, ret. cbn. rewrite H1. cbn. rewrite H2. cbn.
    rewrite H3. reflexivity.
  - destruct w as [inp tr files ds]. cbn in E. subst inp.
    unfold loop_body, try_ValueError, read_numbers, bind, input, emit,
      print, float_of, ret. cbn. rewrite H1. cbn. rewrite H2. cbn.
    rewrite H3. cbn.
    change (client_details name x1 x2 x3 (calculate_footprint x1 x2 x3))
      with (details (submission name x1 x2 x3)).
    rewrite append_to_csv_run. reflexivity.
  - rewrite (loop_body_valid acc w s1 s2 s3 name answer inp x1 x2 x3
               E H1 H2 H3).
    cbn. rewrite ?E. cbn. split; [lia |]. split; [| right; eauto].
    rewrite calls_app. cbn. now rewrite app_nil_r.
Qed.

Lemma list_ascii_of_string_append (s t : string) :
  list_ascii_of_string (s ++ t)
  = (list_ascii_of_string s ++ list_ascii_of_string t)%list.
Proof.
  induction s as [| a s IH]; [reflexivity |].
  change (a :: list_ascii_of_string (s ++ t)
          = a :: (list_ascii_of_string s ++ list_ascii_of_string t)%list).
  now f_equal.
Qed.

Lemma append_inv_tail (s1 s2 t : string) :
  (s1 ++ t)%string = (s2 ++ t)%string -> s1 = s2.
Proof.
  intros H. apply (f_equal list_ascii_of_string) in H.
  rewrite !list_ascii_of_string_append in H.
  apply app_inv_tail in H.
  apply (f_equal string_of_list_ascii) in H.
  now rewrite !string_of_list_ascii_of_string in H.
Qed.

(** Different clients have different report paths. *)
Lemma report_path_inj (n1 n2 : string) :
  report_path n1 = report_path n2 -> n1 = n2.
Proof.
  unfold report_path. intros H.
  apply (inj (String.app "Reports/")) in H.
  now apply append_inv_tail in H.
Qed.

(** A report never lands on the chart file. *)
Lemma report_path_not_chart (n : string) : report_path n <> GRAPH_FILE.
Proof. discriminate. Qed.

Lemma report_filename_details (r : ClientRecord) (w : World) :
  report_filename (details r) w = Ok (report_path (Client r)) w.
Proof. reflexivity. Qed.

Lemma last_named_name (n : string) (rs : list ClientRecord)
  (r : ClientRecord) :
  last_named n rs = Some r -> Client r = n.
Proof.
  induction rs as [| r0 rs IH]; cbn; [discriminate |].
  destruct (last_named n rs) as [r' |]; [exact IH |].
  destruct (String.eqb (Client r0) n) eqn:E; [| discriminate].
  intros [= <-]. now apply String.eqb_eq.
Qed.

Lemma drop_to_slash_keeps (l r : list ascii) :
  exists l', drop_to_slash (l ++ slash :: r) = (l' ++ slash :: r)%list.
Proof.
  induction l as [| c l IH]; [now exists [] |].
  cbn [app drop_to_slash].
  destruct (Ascii.eqb c slash); [now exists (c :: l) | exact IH].
Qed.

Lemma drop_slashes_nonempty (l : list ascii) (c : ascii) :
  c <> slash -> In c l -> drop_slashes l <> [].
Proof.
  intros Hc. induction l as [| x l IH]; intros Hin; [destruct Hin |].
  cbn [drop_slashes].
  destruct (Ascii.eqb x slash) eqn:E; [| discriminate].
  apply Ascii.eqb_eq in E. subst x.
  destruct Hin as [Heq | Hin]; [now destruct Hc | now apply IH].
Qed.

Lemma string_of_list_ascii_nonempty (l : list ascii) :
  l <> [] -> string_of_list_ascii l <> "".
Proof. destruct l; [now intros H | discriminate]. Qed.

(** The path [main] gives a report never spells a directory. *)
Lemma report_path_names_file (n : string) :
  spells_directory (report_path n) = false.
Proof.
  unfold spells_directory, report_path.
  rewrite !list_ascii_of_string_append, !rev_app_distr.
  reflexivity.
Qed.

(** The path [main] gives a report always has a directory part. *)
Lemma dirname_report_path (n : string) : dirname (report_path n) <> "".
Proof.
  unfold dirname, report_path.
  change "Reports/" with ("Reports" ++ "/")%string.
  rewrite !list_ascii_of_string_append, !rev_app_distr, <- !app_assoc.
  change (List.rev (list_ascii_of_string "/")) with [slash].
  cbn [app].
  destruct (drop_to_slash_keeps
              (List.rev (list_ascii_of_string "_report.pdf")
               ++ List.rev (list_ascii_of_string n))
              (List.rev (list_ascii_of_string "Reports"))) as [l' Hl'].
  rewrite <- app_assoc in Hl'. rewrite Hl'.
  assert (Hne : drop_slashes
                  (l' ++ slash :: List.rev (list_ascii_of_string "Reports"))
                <> []).
  { apply (drop_slashes_nonempty _ "s"%char); [discriminate |].
    apply in_or_app. right. cbn. auto. }
  destruct (drop_slashes _) as [| x xs] eqn:E; [now destruct Hne |].
  apply string_of_list_ascii_nonempty.
  intros H. apply (f_equal (@length ascii)) in H.
  rewrite length_rev in H. discriminate.
Qed.

(** The reports loop: it returns, records one call per record in
    order, leaves every path that is not a report path of the list
    alone, and leaves at each report path the report of the last record
    of that name, with or without the chart as the chart file was there
    at the start. *)
Lemma make_reports_run (rs : list ClientRecord) :
  forall w : World,
  exists w',
    make_reports (map details rs) w = Ok tt w'
    /\ calls (trace w') = (calls (trace w) ++ flat_map report_calls rs)%list
    /\ (forall n,
          fs w' !! report_path n
          = match last_named n rs with
            | Some r => Some (PdfFile (report_ops r (chart_present w)))
            | None => fs w !! report_path n
            end)
    /\ (forall p, (forall r, r ∈ rs -> p <> report_path (Client r)) ->
                  fs w' !! p = fs w !! p).
Proof.
  induction rs as [| r rs IH]; intros w.
  - exists w. cbn. rewrite app_nil_r. auto.
  - cbn [map make_reports]. unfold bind at 1.
    rewrite report_filename_details. unfold bind at 1.
    rewrite create_report_run
      by (apply dirname_report_path || apply report_path_names_file).
    match goal with |- context [make_reports _ ?w1] => set (w1' := w1) end.
    assert (Hchart : chart_present w1' = chart_present w).
    { unfold chart_present, w1'. cbn [fs].
      rewrite lookup_insert_ne by apply report_path_not_chart.
      reflexivity. }
    destruct (IH w1') as (w' & Hrun & Hcalls & Hlast & Hother).
    exists w'. split; [exact Hrun |]. split; [| split].
    + rewrite Hcalls. unfold w1'. cbn [trace flat_map].
      rewrite !calls_app, <- app_assoc. f_equal. f_equal.
      destruct (chart_present w); reflexivity.
    + intros n. rewrite Hlast, Hchart. cbn [last_named].
      destruct (last_named n rs) as [r' |]; [reflexivity |].
      unfold w1'. cbn [fs].
      destruct (String.eqb (Client r) n) eqn:E.
      * apply String.eqb_eq in E. subst n. now rewrite lookup_insert_eq.
      * apply String.eqb_neq in E. rewrite lookup_insert_ne; [reflexivity |].
        intros H. now apply report_path_inj in H.
    + intros p Hp. rewrite Hother.
      * unfold w1'. cbn [fs]. rewrite lookup_insert_ne; [reflexivity |].
        intros H. apply (Hp r); [apply list_elem_of_here | now symmetry].
      * intros r0 Hr0. apply Hp. now apply list_elem_of_further.
Qed.



Lemma session_loop_unfold (fuel : nat) (acc : list dict) (w : World) :
  session_loop (S fuel) acc w
  = match loop_body acc w with
    | Ok (Continue, acc') w' => session_loop fuel acc' w'
    | Ok (Break, acc') w' => Ok acc' w'
    | Raise e w' => Raise e w'
    | OutOfFuel => OutOfFuel
    end.
Proof.
  cbn [session_loop]. unfold bind.
  destruct (loop_body acc w) as [[[] acc'] w' | e w' |]; reflexivity.
Qed.

(** The loop ends within one more unfolding than there are pending
    lines. *)
Lemma session_loop_fuel (fuel : nat) :
  forall (acc : list dict) (w : World),
    (length (stdin w) < fuel)%nat ->
    session_loop fuel acc w <> OutOfFuel.
Proof.
  induction fuel as [| fuel IH]; intros acc w Hlen; [lia |].
  rewrite session_loop_unfold.
  pose proof (loop_body_outcome acc w) as Hout.
  destruct (loop_body acc w) as [[[] acc'] w' | e w' |];
    try discriminate; [| contradiction].
  destruct Hout as (Hlt & _). apply IH. lia.
Qed.

Lemma store_after_existing (files : gmap string file)
  (t : list (list string)) (r : ClientRecord) :
  files !! CSV_FILE = Some (CsvFile t) ->
  store_after files r = <[CSV_FILE := CsvFile (t ++ [record_row r])]> files.
Proof. intros H. unfold store_after. now rewrite H. Qed.

Lemma store_after_absent (files : gmap string file) (r : ClientRecord) :
  files !! CSV_FILE = None ->
  store_after files r = <[CSV_FILE := CsvFile [HEADER; record_row r]]> files.
Proof. intros H. unfold store_after. now rewrite H. Qed.

Lemma fold_store_after_existing (new : list ClientRecord) :
  forall (files : gmap string file) (t : list (list string)),
    files !! CSV_FILE = Some (CsvFile t) ->
    fold_left store_after new files
    = <[CSV_FILE := CsvFile (t ++ map record_row new)]> files.
Proof.
  induction new as [| r new IH]; intros files t Ht; cbn [fold_left map].
  - rewrite app_nil_r. symmetry. now apply insert_id.
  - rewrite (store_after_existing files t r Ht).
    rewrite (IH _ (t ++ [record_row r])%list) by apply lookup_insert_eq.
    now rewrite insert_insert_eq, <- app_assoc.
Qed.

(** The store stays in the program's format, and gains the rows of the
    new submissions after those it had. *)
Lemma fold_store_after_ok (w : World) (r : ClientRecord)
  (new : list ClientRecord) :
  store_ok w ->
  fold_left store_after (r :: new) (fs w)
  = <[CSV_FILE := CsvFile (HEADER :: stored_rows w
                             ++ map record_row (r :: new))]> (fs w).
Proof.
  unfold stored_rows. intros [Hno | [t Ht]]; cbn [fold_left].
  - rewrite Hno, (store_after_absent _ r Hno).
    rewrite (fold_store_after_existing new _ [HEADER; record_row r])
      by apply lookup_insert_eq.
    now rewrite insert_insert_eq.
  - rewrite Ht, (store_after_existing _ _ r Ht).
    rewrite (fold_store_after_existing new _ (HEADER :: t ++ [record_row r]))
      by apply lookup_insert_eq.
    rewrite insert_insert_eq. cbn. now rewrite <- app_assoc.
Qed.


(** C5. Once the three numbers and the name of a pass are read, the
    answer to the continue prompt decides: the loop goes round again
    exactly when the answer, stripped and lowercased, is [yes], and ends
    with the accumulated records on any other answer. *)
Theorem continue_iff_yes (acc : list dict) (w : World)
  (se st sw name answer : string) (rest : list string) (e t k : float) :
  stdin w = se :: st :: sw :: name :: answer :: rest ->
  PyStr.to_float se = Some e ->
  PyStr.to_float st = Some t ->
  PyStr.to_float sw = Some k ->
  exists c acc' w',
    loop_body acc w = Ok (c, acc') w'
    /\ stdin w' = rest
    /\ (c = Continue <-> says_yes answer)
    /\ (c = Break <-> ~ says_yes answer)
    /\ (forall fuel,
          session_loop (S fuel) acc w
          = match c with
            | Continue => session_loop fuel acc' w'
            | Break => Ok acc' w'
            end).
Proof.
  intros Hin He Ht Hk. do 3 eexists.
  split; [exact (loop_body_valid acc w se st sw name answer rest e t k
                   Hin He Ht Hk) |].
  split; [reflexivity |].
  unfold says_yes.
  destruct (String.eqb (PyStr.lower (PyStr.strip answer)) "yes") eqn:E.
  - apply String.eqb_eq in E.
    split; [tauto |]. split; [split; [discriminate | tauto] |].
    intros fuel. rewrite session_loop_unfold.
    rewrite (loop_body_valid acc w se st sw name answer rest e t k
               Hin He Ht Hk).
    rewrite (proj2 (String.eqb_eq _ _) E). reflexivity.
  - apply String.eqb_neq in E.
    split; [split; [discriminate | tauto] |]. split; [tauto |].
    intros fuel. rewrite session_loop_unfold.
    rewrite (loop_body_valid acc w se st sw name answer rest e t k
               Hin He Ht Hk).
    rewrite (proj2 (String.eqb_neq _ _) E). reflexivity.
Qed.

Lemma continue_iff_yes_witness :
  let w := world0 ["10"; "5"; "2"; "Acme"; " YES "; "7"] in
  says_yes " YES "
  /\ exists c acc' w',
       loop_body [] w = Ok (c, acc') w'
       /\ stdin w' = ["7"]
       /\ c = Continue.
Proof.
  intros w. split; [reflexivity |].
  destruct (continue_iff_yes [] w "10" "5" "2" "Acme" " YES " ["7"]
              (energy_kwh acme) (transport_km acme) (waste_kg acme)
              eq_refl eq_refl eq_refl eq_refl)
    as (c & acc' & w' & Hrun & Hin & Hyes & _).
  exists c, acc', w'. split; [exact Hrun |]. split; [exact Hin |].
  apply Hyes. reflexivity.
Defined.





(** *** Termination *)

Lemma terminates_ret {A} (a : A) : terminates (ret a).
Proof. intros w. discriminate. Qed.

Lemma terminates_raise {A} (e : exn) : terminates (@raise A e).
Proof. intros w. discriminate. Qed.

Lemma terminates_bind {A B} (m : M A) (k : A -> M B) :
  terminates m -> (forall a, terminates (k a)) -> terminates (bind m k).
Proof.
  intros Hm Hk w. unfold bind.
  destruct (m w) as [a w' | e w' |] eqn:E.
  - apply Hk.
  - discriminate.
  - now apply Hm in E.
Qed.

Lemma terminates_emit (e : event) : terminates (emit e).
Proof. intros w. discriminate. Qed.

Lemma terminates_print (s : string) : terminates (print s).
Proof. apply terminates_emit. Qed.

Lemma terminates_path_exists (p : string) : terminates (path_exists p).
Proof. intros w. discriminate. Qed.

Lemma terminates_write_file (p : string) (f : file) :
  terminates (write_file p f).
Proof. intros w. discriminate. Qed.

Lemma terminates_makedirs (p : string) : terminates (makedirs p).
Proof. intros w. unfold makedirs. destruct (String.eqb p ""); discriminate. Qed.

Lemma terminates_read_csv (p : string) : terminates (read_csv p).
Proof.
  intros w. unfold read_csv.
  destruct (fs w !! p) as [[[| h t] | | |] |]; try discriminate.
  destruct (too_long _ _); discriminate.
Qed.

Lemma terminates_plt_bar (x y : list value) (color label : string) :
  terminates (plt_bar x y color label).
Proof. intros w. unfold plt_bar. destruct (plottable x); discriminate. Qed.

Lemma terminates_plt_plot (x y : list value) (color label : string) :
  terminates (plt_plot x y color label).
Proof. intros w. unfold plt_plot. destruct (plottable x); discriminate. Qed.

Lemma terminates_getitem (d : dict) (k : string) : terminates (getitem d k).
Proof. intros w. unfold getitem. destruct (dict_get d k); discriminate. Qed.

Lemma terminates_column (df : DataFrame) (c : string) :
  terminates (column df c).
Proof.
  apply terminates_bind; [apply terminates_emit | intros _].
  destruct (index_of c (columns df));
    [apply terminates_ret | apply terminates_raise].
Qed.

Create HintDb terminates.

#[local] Hint Resolve terminates_ret terminates_raise terminates_bind
  terminates_emit terminates_print terminates_path_exists
  terminates_write_file terminates_makedirs terminates_read_csv
  terminates_getitem terminates_column terminates_plt_bar
  terminates_plt_plot : terminates.
#[local] Hint Extern 2 (terminates (if ?b then _ else _)) =>
  destruct b : terminates.

Lemma terminates_generate_graph : terminates generate_graph.
Proof.
  unfold generate_graph, call, savefig. auto 60 with terminates.
Qed.

Lemma terminates_create_report (d : dict) (p : string) :
  terminates (create_report d p).
Proof.
  unfold create_report, call, save. auto 60 with terminates.
Qed.

Lemma terminates_make_reports (cs : list dict) :
  terminates (make_reports cs).
Proof.
  induction cs as [| c cs IH]; cbn [make_reports].
  - apply terminates_ret.
  - unfold report_filename.
    pose proof terminates_create_report. auto 20 with terminates.
Qed.

(** The fuel [main] gives the loop is enough: [main] returns or
    raises. *)
Lemma main_never_out_of_fuel (w : World) : main w <> OutOfFuel.
Proof.
  unfold main. unfold bind at 1.
  pose proof (session_loop_fuel (S (length (stdin w))) [] w) as Hloop.
  destruct (session_loop (S (length (stdin w))) [] w) as [cs w1 | e w1 |].
  - pose proof terminates_generate_graph.
    pose proof (terminates_make_reports cs).
    assert (Hrest : terminates
              (generate_graph ;;; make_reports cs ;;;
               print "All reports generated successfully."))
      by auto 20 with terminates.
    apply Hrest.
  - discriminate.
  - exfalso. apply Hloop; [lia | reflexivity].
Qed.

Lemma report_path_not_store (n : string) : report_path n <> CSV_FILE.
Proof. discriminate. Qed.




(** C9. For the submission energy 10, transport 5, waste 2 the
    computed footprint is the float [3.93]; its [repr] is the string
    [3.93]; a run that enters this submission for client Acme stores the
    row [Acme,10.0,5.0,2.0,3.93] under the header and writes a report
    that contains the line [Footprint: 3.93 kg CO2]. *)
Theorem acme_example :
  PyStr.to_float "10" = Some (energy_kwh acme)
  /\ PyStr.to_float "5" = Some (transport_km acme)
  /\ PyStr.to_float "2" = Some (waste_kg acme)
  /\ PyStr.to_float "3.93" = Some (total_footprint acme)
  /\ repr (total_footprint acme) = "3.93"
  /\ exists w',
       main (world0 ["10"; "5"; "2"; "Acme"; "no"]) = Ok tt w'
       /\ fs w' !! CSV_FILE
          = Some (CsvFile [HEADER; ["Acme"; "10.0"; "5.0"; "2.0"; "3.93"]])
       /\ exists ops,
            fs w' !! report_path "Acme" = Some (PdfFile ops)
            /\ DrawString 50 632 "Footprint: 3.93 kg CO2" ∈ ops.
Proof.
  repeat (split; [vm_compute; reflexivity |]).
  eexists. split; [vm_compute; reflexivity |].
  split; [vm_compute; reflexivity |].
  eexists. split; [vm_compute; reflexivity |].
  do 7 apply list_elem_of_further. apply list_elem_of_here.
Qed.

End SessionController.


(* ===================================================================== *)
(** ** Further properties of the session loop *)
(* ===================================================================== *)

Section SessionEffects.

Arguments store_after : simpl never.
Arguments calls : simpl never.

(** Events that are not calls drop out of [calls]. *)
Ltac calls_simpl :=
  unfold calls; rewrite ?List.filter_app; cbn [List.filter is_call];
  rewrite <- ?app_assoc; cbn [app]; rewrite ?app_nil_r.

(** Every way one pass can end, with what it did to the world. A pass
    that raises has found the terminal empty; it may already have
    appended its submission (the name was read, the answer was not). A
    submission is built from the parsed entries and carries the footprint
    computed from them. *)
Lemma loop_body_effects (acc : list dict) (w : World) :
  match loop_body acc w with
  | OutOfFuel => False
  | Raise e w' =>
      e = EOFError
      /\ stdin w' = []
      /\ calls (trace w') = calls (trace w)
      /\ dirs w' = dirs w
      /\ (fs w' = fs w
          \/ exists name x y z,
               fs w' = store_after (fs w) (submission name x y z))
  | Ok (c, acc') w' =>
      calls (trace w') = calls (trace w)
      /\ dirs w' = dirs w
      /\ ((c = Continue /\ acc' = acc /\ fs w' = fs w)
          \/ exists name x y z,
               acc' = (acc ++ [details (submission name x y z)])%list
               /\ fs w' = store_after (fs w) (submission name x y z))
  end.
Proof.
  destruct (stdin w) as [| s1 inp] eqn:E.
  { destruct w as [inp tr files ds]. cbn in E. subst inp.
    cbn. calls_simpl. auto 10. }
  destruct (PyStr.to_float s1) as [x1 |] eqn:H1.
  2:{ rewrite (loop_body_invalid acc w [] s1 inp E); cbn;
        [| lia | constructor | exact H1].
      split; [| split; [| left]; auto].
      now calls_simpl. }
  destruct inp as [| s2 inp].
  { destruct w as [inp tr files ds]. cbn in E. subst inp.
    unfold loop_body, try_ValueError, read_numbers, bind, input, emit,
      print, float_of, ret. cbn. rewrite H1. cbn.
    calls_simpl. auto 10. }
  destruct (PyStr.to_float s2) as [x2 |] eqn:H2.
  2:{ rewrite (loop_body_invalid acc w [s1] s2 inp E); cbn;
        [| lia | repeat constructor; eauto | exact H2].
      split; [| split; [| left]; auto].
      now calls_simpl. }
  destruct inp as [| s3 inp].
  { destruct w as [inp tr files ds]. cbn in E. subst inp.
    unfold loop_body, try_ValueError, read_numbers, bind, input, emit,
      print, float_of, ret. cbn. rewrite H1. cbn. rewrite H2. cbn.
    calls_simpl. auto 10. }
  destruct (PyStr.to_float s3) as [x3 |] eqn:H3.
  2:{ rewrite (loop_body_invalid acc w [s1; s2] s3 inp E); cbn;
        [| lia | repeat constructor; eauto | exact H3].
      split; [| split; [| left]; auto].
      now calls_simpl. }
  destruct inp as [| name [| answer inp]].
  - destruct w as [inp tr files ds]. cbn in E. subst inp.
    unfold loop_body, try_ValueError, read_numbers, bind, input, emit,
      print, float_of, ret. cbn. rewrite H1. cbn. rewrite H2. cbn.
    rewrite H3. cbn.
    calls_simpl. auto 10.
  - destruct w as [inp tr files ds]. cbn in E. subst inp.
    unfold loop_body, try_ValueError, read_numbers, bind, input, emit,
      print, float_of, ret. cbn. rewrite H1. cbn. rewrite H2. cbn.
    rewrite H3. cbn.
    change (client_details name x1 x2 x3 (calculate_footprint x1 x2 x3))
      with (details (submission name x1 x2 x3)).
    rewrite append_to_csv_run. cbn.
    calls_simpl. repeat split; try reflexivity. right. eauto.
  - rewrite (loop_body_valid acc w s1 s2 s3 name answer inp x1 x2 x3
               E H1 H2 H3).
    cbn. split; [| split; [reflexivity | right; eauto 10]].
    now calls_simpl.
Qed.

Lemma consistent_submission (name : string) (x y z : float) :
  consistent (submission name x y z).
Proof. reflexivity. Qed.

(** Whatever way the loop ends, the disk differs from the start by the
    rows of some submissions appended in order, each consistent; no call
    is recorded and no directory made. When the loop returns, its result
    is the accumulator followed by those submissions; when it raises, the
    exception is [EOFError] and the terminal is empty. *)
Lemma session_loop_effects (fuel : nat) :
  forall (acc : list dict) (w w' : World),
    final_world (session_loop fuel acc w) = Some w' ->
    exists new : list ClientRecord,
      fs w' = fold_left store_after new (fs w)
      /\ Forall consistent new
      /\ calls (trace w') = calls (trace w)
      /\ dirs w' = dirs w
      /\ match session_loop fuel acc w with
         | Ok cs _ => cs = (acc ++ map details new)%list /\ new <> []
         | Raise e _ => e = EOFError /\ stdin w' = []
         | OutOfFuel => False
         end.
Proof.
  induction fuel as [| fuel IH]; intros acc w w' Hfin; [discriminate |].
  rewrite session_loop_unfold in Hfin |- *.
  pose proof (loop_body_effects acc w) as Hbody.
  destruct (loop_body acc w) as [[c acc'] w1 | e w1 |]; [| | contradiction].
  - destruct Hbody as (Hc & Hd & [(-> & -> & Hfs) | (n & x & y & z & -> & Hfs)]).
    + destruct (IH _ _ _ Hfin) as (new & Hfs' & Hcons & Hc' & Hd' & Hres).
      exists new. rewrite Hfs', Hc', Hd', Hfs, Hc, Hd.
      split; [reflexivity |]. split; [exact Hcons |].
      do 2 (split; [reflexivity |]). exact Hres.
    + destruct c.
      * destruct (IH _ _ _ Hfin) as (new & Hfs' & Hcons & Hc' & Hd' & Hres).
        exists (submission n x y z :: new).
        rewrite Hfs', Hc', Hd', Hfs, Hc, Hd.
        split; [reflexivity |].
        split; [constructor; [apply consistent_submission | exact Hcons] |].
        do 2 (split; [reflexivity |]).
        destruct (session_loop fuel _ w1) as [cs w2 | e w2 |]; auto.
        destruct Hres as [-> _]. rewrite <- app_assoc.
        split; [reflexivity | discriminate].
      * injection Hfin as <-. exists [submission n x y z].
        rewrite Hfs, Hc, Hd.
        repeat split; auto using consistent_submission; discriminate.
  - injection Hfin as <-.
    destruct Hbody as (-> & Hin & Hc & Hd & [Hfs | (n & x & y & z & Hfs)]).
    + exists []. rewrite Hfs, Hc, Hd. repeat split; auto.
    + exists [submission n x y z]. rewrite Hfs, Hc, Hd.
      repeat split; auto using consistent_submission.
Qed.

Lemma store_after_other (files : gmap string file) (r : ClientRecord)
  (p : string) :
  p <> CSV_FILE -> store_after files r !! p = files !! p.
Proof. intros Hp. unfold store_after. now apply lookup_insert_ne. Qed.

Lemma fold_store_after_other (new : list ClientRecord) :
  forall (files : gmap string file) (p : string),
    p <> CSV_FILE -> fold_left store_after new files !! p = files !! p.
Proof.
  induction new as [| r new IH]; intros files p Hp; cbn [fold_left];
    [reflexivity |].
  now rewrite IH, store_after_other.
Qed.

(** Appending keeps a store in the program's format in that format, its
    earlier rows in place. *)
Lemma fold_store_after_rows (new : list ClientRecord) (w w' : World) :
  store_ok w ->
  fs w' = fold_left store_after new (fs w) ->
  store_ok w'
  /\ stored_rows w' = (stored_rows w ++ map record_row new)%list.
Proof.
  intros Hok Hfs. destruct new as [| r new].
  - cbn in Hfs. unfold store_ok, stored_rows. rewrite Hfs, app_nil_r. auto.
  - rewrite (fold_store_after_ok w r new Hok) in Hfs.
    unfold store_ok, stored_rows at 1. rewrite Hfs, lookup_insert_eq.
    split; [right; eauto | reflexivity].
Qed.

(** Every way [generate_graph] can end. It reads no terminal line and
    makes no directory; when it returns, no file but the chart differs,
    and the no-data message was printed only if the store is absent;
    when it raises, no file differs at all, and the exception is
    [EmptyDataError] only on a store of zero bytes. *)
Lemma generate_graph_effects (w : World) :
  match generate_graph w with
  | OutOfFuel => False
  | Ok _ w' =>
      stdin w' = stdin w /\ dirs w' = dirs w
      /\ calls (trace w') = (calls (trace w) ++ [Enter FGraph; Exit FGraph])%list
      /\ (forall p, p <> GRAPH_FILE -> fs w' !! p = fs w !! p)
      /\ exists added,
           trace w' = (trace w ++ added)%list
           /\ (Print no_data_message ∈ added -> fs w !! CSV_FILE = None)
  | Raise e w' =>
      stdin w' = stdin w /\ dirs w' = dirs w /\ fs w' = fs w
      /\ calls (trace w') = (calls (trace w) ++ [Enter FGraph])%list
      /\ e <> EOFError /\ e <> FileNotFoundError
      /\ (e = EmptyDataError -> fs w !! CSV_FILE = Some (CsvFile []))
  end.
Proof.
  destruct w as [inp tr files ds].
  unfold generate_graph, call, bind, emit, path_exists, print, read_csv,
    has_column, column, savefig, write_file, ret, raise, plt_bar, plt_plot,
    read_table, set_trace, set_fs.
  cbn.
  destruct (files !! CSV_FILE) as [[[| h t] | c | ops |] |] eqn:E; cbn;
    rewrite ?E; cbn.
  all: try (calls_simpl; repeat split; auto; try discriminate;
            try (intros ?; discriminate); fail).
  2:{ calls_simpl. repeat split; auto.
      eexists. split; [reflexivity |]. intros _. reflexivity. }
  set (R := map _ t).
  destruct (too_long _ t); cbn.
  { calls_simpl. repeat split; auto; try discriminate. }
  destruct (bool_decide ("Client" ∈ h)) eqn:B; cbn.
  2:{ calls_simpl. repeat split; auto.
      eexists. split; [reflexivity |]. not_in_list. }
  apply bool_decide_eq_true_1 in B.
  destruct (index_of_elem _ _ B) as [i0 Hi0]. rewrite Hi0. cbn.
  destruct (index_of "total_footprint" h) as [i1 |] eqn:E1; cbn.
  2:{ calls_simpl. repeat split; auto; discriminate. }
  destruct (plottable _) eqn:P; cbn.
  2:{ calls_simpl. repeat split; auto; discriminate. }
  destruct (index_of "energy_kwh" h) as [i2 |] eqn:E2; cbn.
  2:{ calls_simpl. repeat split; auto; discriminate. }
  destruct (index_of "transport_km" h) as [i3 |] eqn:E3; cbn.
  2:{ calls_simpl. repeat split; auto; discriminate. }
  destruct (index_of "waste_kg" h) as [i4 |] eqn:E4; cbn.
  2:{ calls_simpl. repeat split; auto; discriminate. }
  calls_simpl. repeat split; auto.
  - intros p Hp. now apply lookup_insert_ne.
  - eexists. split; [reflexivity |]. not_in_list.
Qed.
Lemma main_unfold (w : World) :
  main w
  = match session_loop (S (length (stdin w))) [] w with
    | Ok cs w1 =>
        match generate_graph w1 with
        | Ok _ w2 =>
            match make_reports cs w2 with
            | Ok _ w3 => print "All reports generated successfully." w3
            | Raise e w3 => Raise e w3
            | OutOfFuel => OutOfFuel
            end
        | Raise e w2 => Raise e w2
        | OutOfFuel => OutOfFuel
        end
    | Raise e w1 => Raise e w1
    | OutOfFuel => OutOfFuel
    end.
Proof.
  unfold main, bind.
  destruct (session_loop _ [] w) as [cs w1 | e w1 |]; [| reflexivity ..].
  destruct (generate_graph w1) as [[] w2 | e w2 |]; [| reflexivity ..].
  destruct (make_reports cs w2) as [[] w3 | e w3 |]; reflexivity.
Qed.

Lemma store_after_nonempty (files : gmap string file) (r : ClientRecord) :
  store_nonempty (store_after files r !! CSV_FILE).
Proof.
  unfold store_after. rewrite lookup_insert_eq.
  destruct (files !! CSV_FILE) as [[[| h t] | | |] |]; exact I.
Qed.

Lemma fold_store_after_nonempty (new : list ClientRecord) :
  forall files : gmap string file,
    store_nonempty (files !! CSV_FILE) ->
    store_nonempty (fold_left store_after new files !! CSV_FILE).
Proof.
  induction new as [| r new IH]; intros files H; cbn [fold_left];
    [exact H |].
  apply IH, store_after_nonempty.
Qed.

(** X1. In [main] the renderer always finds data. When the session
    loop has returned, the store exists and holds at least one row (or
    is no table at all), because the loop ends only after an append. So
    the call of [generate_graph] that follows never prints the no-data
    message and never ends in [FileNotFoundError] or in the
    [EmptyDataError] of [read_csv], and [main] never ends in
    [EmptyDataError]. *)
Theorem main_renderer_finds_data (w : World) (cs : list dict) (w1 : World) :
  session_loop (S (length (stdin w))) [] w = Ok cs w1 ->
  store_nonempty (fs w1 !! CSV_FILE)
  /\ (forall e w2, generate_graph w1 = Raise e w2 ->
        e <> EmptyDataError /\ e <> FileNotFoundError)
  /\ (forall w2, generate_graph w1 = Ok tt w2 ->
        exists added,
          trace w2 = (trace w1 ++ added)%list
          /\ Print no_data_message ∉ added)
  /\ (forall e w', main w = Raise e w' -> e <> EmptyDataError).
Proof.
  intros Hrun.
  pose proof (session_loop_effects (S (length (stdin w))) [] w) as Hloop.
  rewrite Hrun in Hloop.
  destruct (Hloop w1 eq_refl) as (new & Hfs & _ & _ & _ & Hcs & Hne).
  cbn [app] in Hcs. subst cs.
  assert (Hstore : store_nonempty (fs w1 !! CSV_FILE)).
  { rewrite Hfs. destruct new as [| r new]; [contradiction |].
    cbn [fold_left]. apply fold_store_after_nonempty, store_after_nonempty. }
  pose proof (generate_graph_effects w1) as Hgraph.
  assert (Hraise : forall e w2, generate_graph w1 = Raise e w2 ->
            e <> EmptyDataError /\ e <> FileNotFoundError).
  { intros e w2 H. rewrite H in Hgraph.
    destruct Hgraph as (_ & _ & _ & _ & _ & Hnf & Hempty).
    split; [| exact Hnf]. intros He. apply Hempty in He.
    rewrite He in Hstore. exact Hstore. }
  split; [exact Hstore |]. split; [exact Hraise |]. split.
  - intros w2 H. rewrite H in Hgraph.
    destruct Hgraph as (_ & _ & _ & _ & added & Htrace & Hmsg).
    exists added. split; [exact Htrace |]. intros Hin.
    apply Hmsg in Hin. rewrite Hin in Hstore. exact Hstore.
  - intros e w'. rewrite main_unfold, Hrun. intros H.
    destruct (generate_graph w1) as [[] w2 | e2 w2 |] eqn:Eg;
      [| | discriminate].
    + destruct (make_reports_run new w2) as (w3 & Hreports & _).
      rewrite Hreports in H. discriminate.
    + injection H as <- <-. now apply (Hraise e2 w2).
Qed.

Lemma main_renderer_finds_data_witness :
  let w := world0 ["10"; "5"; "2"; "Acme"; "no"] in
  exists cs w1,
    session_loop (S (length (stdin w))) [] w = Ok cs w1
    /\ store_nonempty (fs w1 !! CSV_FILE)
    /\ (forall e w', main w = Raise e w' -> e <> EmptyDataError).
Proof.
  intros w.
  assert (H : exists cs w1, session_loop (S (length (stdin w))) [] w = Ok cs w1)
    by (do 2 eexists; vm_compute; reflexivity).
  destruct H as (cs & w1 & H). exists cs, w1.
  destruct (main_renderer_finds_data w cs w1 H) as (Hstore & _ & _ & Hmain).
  auto.
Defined.

(** X2. When [main] ends with [EOFError] the terminal is empty, neither
    [generate_graph] nor [create_report] was called, no directory was
    made, and no file but the store differs from the start; the store has
    gained the rows of the submissions completed before the input ran
    out, each with its computed footprint. *)
Theorem main_eof_keeps_appended_rows (w w' : World) :
  main w = Raise EOFError w' ->
  stdin w' = []
  /\ calls (trace w') = calls (trace w)
  /\ dirs w' = dirs w
  /\ (forall p, p <> CSV_FILE -> fs w' !! p = fs w !! p)
  /\ exists new : list ClientRecord,
       Forall consistent new
       /\ fs w' = fold_left store_after new (fs w)
       /\ (store_ok w ->
           store_ok w'
           /\ stored_rows w' = (stored_rows w ++ map record_row new)%list).
Proof.
  rewrite main_unfold. intros H.
  pose proof (session_loop_effects (S (length (stdin w))) [] w) as Hloop.
  destruct (session_loop _ [] w) as [cs w1 | e1 w1 |]; [| | discriminate].
  - exfalso.
    destruct (Hloop w1 eq_refl) as (new & Hfs & _ & _ & _ & Hcs & Hne).
    cbn [app] in Hcs. subst cs.
    pose proof (generate_graph_effects w1) as Hgraph.
    destruct (generate_graph w1) as [[] w2 | e2 w2 |]; [| | discriminate].
    + destruct (make_reports_run new w2) as (w3 & Hrun & _).
      rewrite Hrun in H. discriminate.
    + injection H as -> <-.
      destruct Hgraph as (_ & _ & _ & _ & Hne' & _). now destruct Hne'.
  - injection H as -> <-.
    destruct (Hloop w1 eq_refl) as (new & Hfs & Hcons & Hc & Hd & _ & Hin).
    repeat split; auto.
    + intros p Hp. rewrite Hfs. now apply fold_store_after_other.
    + exists new. repeat split; auto;
        now apply (fold_store_after_rows new w w1).
Qed.

Lemma main_eof_keeps_appended_rows_witness :
  let w := world0 ["10"; "5"; "2"; "Acme"; "yes"; "1"] in
  exists w',
    main w = Raise EOFError w'
    /\ stdin w' = []
    /\ calls (trace w') = calls (trace w)
    /\ store_ok w'.
Proof.
  intros w.
  assert (H : exists w', main w = Raise EOFError w')
    by (eexists; vm_compute; reflexivity).
  destruct H as [w' H]. exists w'.
  destruct (main_eof_keeps_appended_rows w w' H)
    as (Hin & Hc & _ & _ & new & _ & _ & Hok).
  repeat split; auto. apply Hok. left. reflexivity.
Defined.

(** X3. When the session loop returns, its result is the accumulator it
    started from followed by the submissions of the run, at least one, in
    the order entered; each carries the footprint computed from its three
    entries; the store has gained exactly their rows in the same order,
    and no other file differs. *)
Theorem session_loop_collects_what_it_stores
  (fuel : nat) (acc cs : list dict) (w w1 : World) :
  session_loop fuel acc w = Ok cs w1 ->
  exists new : list ClientRecord,
    new <> []
    /\ cs = (acc ++ map details new)%list
    /\ Forall consistent new
    /\ fs w1 = fold_left store_after new (fs w)
    /\ (forall p, p <> CSV_FILE -> fs w1 !! p = fs w !! p)
    /\ (store_ok w ->
        store_ok w1
        /\ stored_rows w1 = (stored_rows w ++ map record_row new)%list).
Proof.
  intros H.
  destruct (session_loop_effects fuel acc w w1) as
    (new & Hfs & Hcons & _ & _ & Hres); [now rewrite H |].
  rewrite H in Hres. destruct Hres as [-> Hne].
  exists new. repeat split; auto.
  - intros p Hp. rewrite Hfs. now apply fold_store_after_other.
  - now apply (fold_store_after_rows new w w1).
  - now apply (fold_store_after_rows new w w1).
Qed.

Lemma session_loop_collects_what_it_stores_witness :
  let w := world0 ["10"; "x"; "10"; "5"; "2"; "Acme"; "no"] in
  exists w1 new,
    session_loop 3 [] w = Ok [details acme] w1
    /\ [details acme] = map details new
    /\ Forall consistent new
    /\ stored_rows w1 = map record_row new.
Proof.
  intros w.
  assert (H : exists w1, session_loop 3 [] w = Ok [details acme] w1)
    by (eexists; vm_compute; reflexivity).
  destruct H as [w1 H].
  destruct (session_loop_collects_what_it_stores 3 [] _ w w1 H)
    as (new & _ & Hcs & Hcons & _ & _ & Hrows).
  destruct Hrows as [_ Hrows]; [left; reflexivity |].
  exists w1, new. auto.
Defined.

(** X4. The store is append-only and keeps its format. From a store that
    is absent or in the program's format, however [main] ends (returning
    or raising), the store is in the program's format afterwards and its
    rows are the earlier rows, unchanged and in place, followed by the
    rows of this run. *)
Theorem main_store_append_only (w w' : World) :
  store_ok w ->
  final_world (main w) = Some w' ->
  store_ok w'
  /\ exists new : list ClientRecord,
       stored_rows w' = (stored_rows w ++ map record_row new)%list.
Proof.
  intros Hok. rewrite main_unfold.
  pose proof (session_loop_effects (S (length (stdin w))) [] w) as Hloop.
  destruct (session_loop _ [] w) as [cs w1 | e1 w1 |]; [| | discriminate].
  2:{ intros [= <-].
      destruct (Hloop w1 eq_refl) as (new & Hfs & _).
      destruct (fold_store_after_rows new w w1 Hok Hfs). eauto. }
  destruct (Hloop w1 eq_refl) as (new & Hfs & _ & _ & _ & Hcs & _).
  cbn [app] in Hcs. subst cs.
  destruct (fold_store_after_rows new w w1 Hok Hfs) as [Hok1 Hrows1].
  assert (Hsame : forall w2, fs w2 !! CSV_FILE = fs w1 !! CSV_FILE ->
            store_ok w2
            /\ exists new0, stored_rows w2
                            = (stored_rows w ++ map record_row new0)%list).
  { intros w2 H2. unfold store_ok, stored_rows in *. rewrite H2.
    split; [exact Hok1 | exists new; exact Hrows1]. }
  pose proof (generate_graph_effects w1) as Hgraph.
  destruct (generate_graph w1) as [[] w2 | e2 w2 |]; [| | discriminate].
  2:{ intros [= <-]. apply Hsame.
      destruct Hgraph as (_ & _ & -> & _). reflexivity. }
  destruct Hgraph as (_ & _ & _ & Hother & _).
  destruct (make_reports_run new w2) as (w3 & Hrun & _ & _ & Hrest).
  rewrite Hrun. cbn. intros [= <-]. apply Hsame. cbn.
  rewrite Hrest, Hother; [reflexivity | discriminate |].
  intros r _ Hp. symmetry in Hp. now apply report_path_not_store in Hp.
Qed.

Lemma main_store_append_only_witness :
  let w := set_stdin ["1"; "1"; "1"; "Bob"; "no"]
             (world_with {[ CSV_FILE := CsvFile [HEADER; record_row acme] ]}) in
  exists w',
    final_world (main w) = Some w'
    /\ store_ok w'
    /\ exists new, stored_rows w' = (record_row acme :: map record_row new)%list.
Proof.
  intros w.
  assert (H : exists w', final_world (main w) = Some w')
    by (eexists; vm_compute; reflexivity).
  destruct H as [w' H]. exists w'. split; [exact H |].
  apply (main_store_append_only w w'); [| exact H].
  right. exists [record_row acme]. reflexivity.
Defined.

End SessionEffects.

(* ===================================================================== *)
(** ** Further properties of the store, the renderer and the reports *)
(* ===================================================================== *)

Section Components.

Arguments calls : simpl never.

(** X5. [append_to_csv] writes whatever dictionary it is given: the
    values in key order as the row, the keys as the header of a new
    store, with no check against the header of an existing store. It
    writes before it reads [client_data['Client']], so a dictionary
    without that key is persisted and then [KeyError] is raised. *)
Theorem append_to_csv_writes_before_lookup (d : dict) (w : World) :
  exists w',
    fs w' = store_with (fs w) d
    /\ stdin w' = stdin w
    /\ match dict_get d "Client" with
       | Some v => append_to_csv d w = Ok tt w'
       | None => append_to_csv d w = Raise (KeyError "Client") w'
       end.
Proof.
  unfold append_to_csv, bind, path_exists, to_csv, write_file, getitem,
    print, emit, ret, raise, csv_rows, store_with, dict_row.
  cbn [fs set_fs set_trace stdin DataFrame_of columns rows map app].
  destruct (fs w !! CSV_FILE) as [f |] eqn:E;
    cbn [bool_decide]; cbn; rewrite ?E;
    destruct (dict_get d "Client") as [v |]; eexists;
    (split; [| split; [| reflexivity]]); cbn; try reflexivity;
    destruct f; reflexivity.
Qed.

Lemma append_to_csv_writes_before_lookup_witness :
  let d := [("energy_kwh", VFloat (energy_kwh acme))] in
  exists w',
    append_to_csv d (world0 []) = Raise (KeyError "Client") w'
    /\ fs w' !! CSV_FILE = Some (CsvFile [["energy_kwh"]; ["10.0"]]).
Proof.
  intros d.
  destruct (append_to_csv_writes_before_lookup d (world0 []))
    as (w' & Hfs & _ & Hrun).
  exists w'. split; [exact Hrun |]. rewrite Hfs. vm_compute. reflexivity.
Defined.






(** X8. However [generate_graph] ends, it has read no terminal line,
    made no directory and changed no file other than the chart; when it
    raises, the chart too is as it was, because the figure is saved only
    after every column was read. *)
Theorem generate_graph_touches_only_chart (w w' : World) :
  final_world (generate_graph w) = Some w' ->
  stdin w' = stdin w
  /\ dirs w' = dirs w
  /\ (forall p, p <> GRAPH_FILE -> fs w' !! p = fs w !! p)
  /\ (forall e, generate_graph w = Raise e w' -> fs w' = fs w).
Proof.
  intros H. pose proof (generate_graph_effects w) as Heff.
  destruct (generate_graph w) as [[] w1 | e1 w1 |]; [| | discriminate];
    injection H as <-.
  - destruct Heff as (Hin & Hd & _ & Hother & _).
    repeat split; auto. discriminate.
  - destruct Heff as (Hin & Hd & Hfs & _).
    repeat split; auto. intros p _. now rewrite Hfs.
Qed.

Lemma generate_graph_touches_only_chart_witness :
  let old := PngFile {| c_figsize := (1, 1);
                        c_bar := {| s_label := ""; s_color := "";
                                    s_x := []; s_y := [] |};
                        c_plots := []; c_xlabel := ""; c_ylabel := "";
                        c_title := ""; c_dpi := 1 |} in
  let w := world_with {[ CSV_FILE := CsvFile [["Client"; "energy_kwh"]];
                         GRAPH_FILE := old ]} in
  exists w',
    generate_graph w = Raise (KeyError "total_footprint") w'
    /\ fs w' !! GRAPH_FILE = Some old.
Proof.
  intros old w.
  assert (H : exists w', generate_graph w = Raise (KeyError "total_footprint") w')
    by (eexists; vm_compute; reflexivity).
  destruct H as [w' H]. exists w'. split; [exact H |].
  destruct (generate_graph_touches_only_chart w w') as (_ & _ & _ & Hfs);
    [now rewrite H |].
  rewrite (Hfs _ H). reflexivity.
Defined.

Lemma chart_not_store : GRAPH_FILE <> CSV_FILE.
Proof. discriminate. Qed.

(** X9. Rendering again without new data changes nothing on disk: when
    [generate_graph] has returned, a second call returns too and leaves
    every file, the chart included, as the first call left it. *)
Theorem generate_graph_twice (w w1 : World) :
  generate_graph w = Ok tt w1 ->
  exists w2, generate_graph w1 = Ok tt w2 /\ fs w2 = fs w1.
Proof.
  destruct w as [inp tr files ds].
  unfold generate_graph, call, bind, emit, path_exists, print, read_csv,
    has_column, column, savefig, write_file, ret, raise, plt_bar, plt_plot,
    read_table, set_trace, set_fs.
  cbn.
  destruct (files !! CSV_FILE) as [[[| h t] | c | ops |] |] eqn:E; cbn;
    rewrite ?E; cbn; try discriminate.
  - set (R := map _ t).
    destruct (too_long _ t) eqn:T; cbn; [discriminate |].
    destruct (bool_decide ("Client" ∈ h)) eqn:B; cbn.
    2:{ intros [= <-]. cbn. rewrite E. cbn. rewrite E, T. cbn. rewrite B.
        cbn. eexists. split; reflexivity. }
    destruct (index_of "Client" h) as [i0 |] eqn:E0; cbn; [| discriminate].
    destruct (index_of "total_footprint" h) as [i1 |] eqn:E1; cbn;
      [| discriminate].
    destruct (plottable _) eqn:P; cbn; [| discriminate].
    destruct (index_of "energy_kwh" h) as [i2 |] eqn:E2; cbn;
      [| discriminate].
    destruct (index_of "transport_km" h) as [i3 |] eqn:E3; cbn;
      [| discriminate].
    destruct (index_of "waste_kg" h) as [i4 |] eqn:E4; cbn;
      [| discriminate].
    intros [= <-]. cbn.
    rewrite (lookup_insert_ne _ _ _ _ chart_not_store), E. cbn.
    rewrite (lookup_insert_ne _ _ _ _ chart_not_store), E, T. cbn.
    rewrite B. cbn. rewrite E0, E1. cbn. fold R. rewrite P. cbn.
    rewrite E2, E3, E4. cbn.
    eexists. split; [reflexivity |]. cbn. apply insert_insert_eq.
  - intros [= <-]. cbn. rewrite E. cbn. eexists. split; reflexivity.
Qed.

Lemma generate_graph_twice_witness :
  let w := world_with {[ CSV_FILE := CsvFile [HEADER; record_row acme] ]} in
  exists w1 w2,
    generate_graph w = Ok tt w1
    /\ generate_graph w1 = Ok tt w2
    /\ fs w2 = fs w1.
Proof.
  intros w.
  assert (H : exists w1, generate_graph w = Ok tt w1)
    by (eexists; vm_compute; reflexivity).
  destruct H as [w1 H].
  destruct (generate_graph_twice w w1 H) as (w2 & H2 & Hfs).
  exists w1, w2. auto.
Defined.













(** *** What a written float looks like *)

Lemma digit_char (d : Z) :
  PyStr.is_digit (ascii_of_nat (48 + Z.to_nat (d mod 10))) = true.
Proof.
  assert (H : 0 <= d mod 10 < 10) by (apply Z.mod_pos_bound; lia).
  remember (Z.to_nat (d mod 10)) as k eqn:Hk.
  assert (Hlt : (k < 10)%nat) by lia. clear Hk H.
  do 10 (destruct k as [| k]; [reflexivity |]). lia.
Qed.

Lemma digits_from_headed (fuel : nat) :
  forall (d : Z) (acc : string), digit_headed (digits_from (S fuel) d acc).
Proof.
  induction fuel as [| fuel IH]; intros d acc.
  - cbn [digits_from]. destruct (d <? 10); apply digit_char.
  - change (digits_from (S (S fuel)) d acc)
      with (if d <? 10
            then String (ascii_of_nat (48 + Z.to_nat (d mod 10))) acc
            else digits_from (S fuel) (d / 10)
                   (String (ascii_of_nat (48 + Z.to_nat (d mod 10))) acc)).
    destruct (d <? 10); [apply digit_char | apply IH].
Qed.

Lemma digits_headed (d : Z) : digit_headed (digits d).
Proof. apply (digits_from_headed 399). Qed.

Lemma append_headed (s t : string) :
  digit_headed s -> digit_headed (s ++ t).
Proof. destruct s as [| c s]; [contradiction | trivial]. Qed.

Lemma layout_headed (ds : string) (pt : Z) :
  digit_headed ds -> digit_headed (layout ds pt).
Proof.
  intros H. destruct ds as [| c rest]; [contradiction |].
  unfold layout.
  destruct ((pt <=? -4) || (16 <? pt))%bool.
  - destruct rest; exact H.
  - destruct (pt <=? 0) eqn:E0; [reflexivity |].
    destruct (_ <=? pt); [exact H |].
    apply Z.leb_gt in E0.
    destruct (Z.to_nat pt) as [| k] eqn:Ek; [lia |].
    exact H.
Qed.

(** [repr] of a float begins with a digit, a minus sign, or the first
    letter of [inf] or [nan]. *)
Lemma repr_float_like (x : float) : float_like (repr x).
Proof.
  destruct x as [[] | [] | | [] m e]; cbn [repr sign_str].
  - right; left; reflexivity.
  - left; reflexivity.
  - right; left; reflexivity.
  - right; right; left; reflexivity.
  - right; right; right; reflexivity.
  - destruct (shortest m e) as [d x10]. right; left; reflexivity.
  - destruct (shortest m e) as [d x10].
    pose proof (layout_headed (digits d)
                  (Z.of_nat (String.length (digits d)) + x10)
                  (digits_headed d)) as H.
    change ("" ++ ?s)%string with s.
    destruct (layout _ _); [contradiction | left; exact H].
Qed.

Lemma csv_cell_float_like (x : float) : float_like (csv_cell (VFloat x)).
Proof.
  unfold csv_cell. destruct (is_nan x); [exact I | apply repr_float_like].
Qed.

(** No float cell reads [energy_kwh], nor [Client]. *)
Lemma float_cell_not_name (x : float) :
  csv_cell (VFloat x) <> "energy_kwh" /\ csv_cell (VFloat x) <> "Client".
Proof.
  pose proof (csv_cell_float_like x) as H.
  split; intros E; rewrite E in H;
    destruct H as [H | [H | [H | H]]]; discriminate.
Qed.

Lemma record_row_not_header (r : ClientRecord) : record_row r <> HEADER.
Proof.
  unfold record_row, HEADER. intros [= _ H _].
  now apply (float_cell_not_name (energy_kwh r)) in H.
Qed.

(** X13. The header occurs once in a store the program has built,
    whatever was typed: no data row can repeat it, not even for a client
    called [Client], because the number cells are written by [repr] and
    never spell a column name. A fresh store after [N >= 1] appends is the
    header followed by [N] rows none of which is the header. *)
Theorem store_header_occurs_once
  (r : ClientRecord) (rs : list ClientRecord) (w : World) :
  fs w !! CSV_FILE = None ->
  exists w' data,
    append_all (r :: rs) w = Ok tt w'
    /\ fs w' !! CSV_FILE = Some (CsvFile (HEADER :: data))
    /\ length data = S (length rs)
    /\ HEADER ∉ data.
Proof.
  intros Hno. cbn [append_all]. unfold bind.
  rewrite append_to_csv_run, Hno.
  edestruct (append_all_existing rs) as (w' & Hrun & Hfs);
    [| exists w', (map record_row (r :: rs)); split; [exact Hrun |]].
  - cbn. apply lookup_insert_eq.
  - split; [rewrite Hfs; apply lookup_insert_eq |].
    split; [cbn; now rewrite length_map |].
    intros Hin. apply list_elem_of_In, in_map_iff in Hin as (r0 & Hr0 & _).
    now apply record_row_not_header in Hr0.
Qed.

Lemma store_header_occurs_once_witness :
  let impostor := submission "Client" (energy_kwh acme) (energy_kwh acme)
                    (energy_kwh acme) in
  fs (world0 []) !! CSV_FILE = None
  /\ exists w' data,
       append_all [impostor; acme] (world0 []) = Ok tt w'
       /\ fs w' !! CSV_FILE = Some (CsvFile (HEADER :: data))
       /\ length data = 2%nat
       /\ HEADER ∉ data.
Proof.
  intros impostor. split; [reflexivity |].
  apply (store_header_occurs_once impostor [acme] (world0 [])).
  reflexivity.
Defined.

(** X14. A store that exists with zero bytes gets no header:
    [append_to_csv] sees the file and appends the bare row. The renderer
    then takes that row for the header, finds no [Client] column (unless
    the client is called [Client]), prints the error and draws nothing. *)
Theorem empty_store_row_taken_for_header (r : ClientRecord) (w : World) :
  fs w !! CSV_FILE = Some (CsvFile []) ->
  Client r <> "Client" ->
  exists w1 w2,
    append_to_csv (details r) w = Ok tt w1
    /\ fs w1 !! CSV_FILE = Some (CsvFile [record_row r])
    /\ generate_graph w1 = Ok tt w2
    /\ Print no_client_message ∈ trace w2
    /\ fs w2 = fs w1.
Proof.
  intros Hempty Hname.
  do 2 eexists. split; [apply append_to_csv_run |].
  rewrite Hempty.
  assert (Hnot : "Client" ∉ record_row r).
  { unfold record_row. intros H.
    repeat (apply elem_of_cons in H as [H | H];
            [first [ now apply Hname
                   | symmetry in H;
                     now apply float_cell_not_name in H ] |]).
    now apply elem_of_nil in H. }
  split; [cbn; apply lookup_insert_eq |].
  split; [apply (generate_graph_no_client _ (record_row r) []);
          [cbn; apply lookup_insert_eq | reflexivity | exact Hnot] |].
  split; [| reflexivity].
  cbn. rewrite !elem_of_app. right.
  do 2 apply list_elem_of_further. apply list_elem_of_here.
Qed.

Lemma empty_store_row_taken_for_header_witness :
  let w := world_with {[ CSV_FILE := CsvFile [] ]} in
  exists w1 w2,
    append_to_csv (details acme) w = Ok tt w1
    /\ fs w1 !! CSV_FILE = Some (CsvFile [record_row acme])
    /\ generate_graph w1 = Ok tt w2
    /\ Print no_client_message ∈ trace w2
    /\ fs w2 = fs w1.
Proof.
  intros w.
  apply (empty_store_row_taken_for_header acme w);
    [reflexivity | discriminate].
Defined.





(** X16. The session loop halts. Every pass reads at least one line of
    the terminal, so with more unfoldings than pending lines the loop
    returns or raises, and any larger number of unfoldings gives the same
    outcome: the result of [main] does not depend on the bound it gives
    the loop. *)
Theorem session_loop_halts (f1 : nat) :
  forall (f2 : nat) (acc : list dict) (w : World),
    (length (stdin w) < f1)%nat ->
    (length (stdin w) < f2)%nat ->
    session_loop f1 acc w <> OutOfFuel
    /\ session_loop f1 acc w = session_loop f2 acc w.
Proof.
  induction f1 as [| f1 IH]; intros f2 acc w H1 H2; [lia |].
  destruct f2 as [| f2]; [lia |].
  rewrite !session_loop_unfold.
  pose proof (loop_body_outcome acc w) as Hout.
  destruct (loop_body acc w) as [[[] acc'] w' | e w' |];
    [| split; [discriminate | reflexivity] ..| contradiction].
  destruct Hout as (Hlt & _).
  apply IH; lia.
Qed.

Lemma session_loop_halts_witness :
  let w := world0 ["x"; "10"; "5"; "2"; "Acme"; "no"] in
  session_loop 7 [] w <> OutOfFuel
  /\ session_loop 7 [] w = session_loop 100 [] w.
Proof.
  intros w. apply (session_loop_halts 7 100 [] w); cbn; lia.
Defined.



End Components.
